(** * The Wikigold named-entity-recognition notebook

    A shallow embedding of
    [examples/named_entity_recognition/ner_wikigold_transformer.ipynb].

    The notebook is a sequence of twelve code cells that call libraries
    (tempfile, torch, random, sklearn, pandas, seqeval, scrapbook and the
    repository's [utils_nlp]).  The cells are embedded as computations in a
    state-and-exception monad over a [world] that holds the log of library
    calls, the state of Python's [random] module, the host (temporary names
    and clock) and the scraps glued as notebook outputs.  The libraries
    themselves are not part of the notebook: they are the fields of a
    record [library], and every theorem quantifies over it. *)

From Stdlib Require Import ZArith List String Ascii Bool Lia.
From Stdlib Require Import Floats.
Import ListNotations.

#[local] Set Warnings "-inexact-float".
#[local] Open Scope Z_scope.

(** ** Python values and exceptions *)

(** The exceptions the notebook's own expressions can raise, and any other
    exception, raised by a library, under its class name. *)
Inductive exn : Type :=
| IndexError
| ValueError
| OverflowError
| LibraryError (name : string).

Inductive result (A : Type) : Type :=
| Ok (a : A)
| Raise (e : exn).
Arguments Ok {A} a.
Arguments Raise {A} e.

(** A tokenised sentence and its tags, one tag per token. *)
Definition sentence : Type := list string.
Definition labels : Type := list string.

(** [LabelMap]: [label_map] is a Python dict from tag to integer id; the notebook only
    passes it on and takes its [len]. *)
Definition LabelMap : Type := list (string * Z).

(** ** Python built-ins used by the cells

    A [str] is a [string]: its characters are read as the code points
    0..255. *)
Module Py.

(** [s.split(sep)] for a one-character separator, which is what the
    notebook passes (["/"] and ["\n"]). *)
Fixpoint split_sep (sep : ascii) (s : string) : list string :=
  match s with
  | EmptyString => [EmptyString]
  | String c r =>
      if Ascii.eqb c sep then EmptyString :: split_sep sep r
      else match split_sep sep r with
           | h :: t => String c h :: t
           | [] => [String c EmptyString]
           end
  end.

(** [str.isspace] on one character: TAB..CR, FS..US, SPACE, NEL, NBSP. *)
Definition isspace (c : ascii) : bool :=
  let n := N_of_ascii c in
  (((9 <=? n) && (n <=? 13)) || ((28 <=? n) && (n <=? 32))
   || (n =? 133) || (n =? 160))%N.

(** [s.split()]: the maximal runs of non-space characters, in order. *)
Fixpoint fields (cur : string) (s : string) : list string :=
  match s with
  | EmptyString =>
      match cur with EmptyString => [] | _ => [cur] end
  | String c r =>
      if isspace c then
        match cur with
        | EmptyString => fields EmptyString r
        | _ => cur :: fields EmptyString r
        end
      else fields (String.append cur (String c EmptyString)) r
  end.

Definition split (s : string) : list string := fields EmptyString s.

(** [l[i]], with Python's negative indices and its [IndexError]. *)
Definition getitem {A : Type} (l : list A) (i : Z) : result A :=
  let n := Z.of_nat (List.length l) in
  let j := if i <? 0 then n + i else i in
  if (j <? 0) || (n <=? j) then Raise IndexError
  else match nth_error l (Z.to_nat j) with
       | Some x => Ok x
       | None => Raise IndexError
       end.

(** An [int] or a [float]: [SAMPLE_RATIO] is the int [1] or the float
    [0.1]. *)
Inductive number : Type :=
| PyInt (z : Z)
| PyFloat (f : float).

(** [float(z)] of an int: the nearest binary64 value. *)
Definition float_of_int (z : Z) : float :=
  SF2Prim (binary_normalize prec emax z 0 false).

(** [a * b]: int times int is exact, anything else is a binary64
    product. *)
Definition mul (a b : number) : number :=
  match a, b with
  | PyInt x, PyInt y => PyInt (x * y)
  | PyInt x, PyFloat g => PyFloat (float_of_int x * g)%float
  | PyFloat f, PyInt y => PyFloat (f * float_of_int y)%float
  | PyFloat f, PyFloat g => PyFloat (f * g)%float
  end.

(** [int(x)]: a float is truncated towards zero; [int(inf)] raises
    [OverflowError] and [int(nan)] raises [ValueError]. *)
Definition int (x : number) : result Z :=
  match x with
  | PyInt z => Ok z
  | PyFloat f =>
      match Prim2SF f with
      | S754_zero _ => Ok 0
      | S754_infinity _ => Raise OverflowError
      | S754_nan => Raise ValueError
      | S754_finite s m e =>
          let a := match e with
                   | Z0 => Zpos m
                   | Zpos p => Zpos m * 2 ^ Zpos p
                   | Zneg p => Zpos m / 2 ^ Zpos p
                   end in
          Ok (if s then - a else a)
      end
  end.

(** [[l[i] for i in idx]]: the first position out of range raises
    [IndexError]. *)
Fixpoint pick {A : Type} (l : list A) (idx : list nat) : result (list A) :=
  match idx with
  | [] => Ok []
  | i :: rest =>
      match nth_error l i with
      | None => Raise IndexError
      | Some x =>
          match pick l rest with
          | Ok xs => Ok (x :: xs)
          | Raise e => Raise e
          end
      end
  end.

(** [a, b = list(zip( *pairs ))]: the transpose of a list of pairs is the
    list of its two columns; of an empty list it is empty, and unpacking
    it into two names raises [ValueError]. *)
Definition unzip2 {A B : Type} (pairs : list (A * B))
  : result (list A * list B) :=
  match pairs with
  | [] => Raise ValueError
  | _ :: _ => Ok (map fst pairs, map snd pairs)
  end.

(** [os.path.join(a, b)] on a POSIX host. *)
Definition startswith_slash (s : string) : bool :=
  match s with
  | String c _ => Ascii.eqb c "/"%char
  | EmptyString => false
  end.

Fixpoint endswith_slash (s : string) : bool :=
  match s with
  | EmptyString => false
  | String c EmptyString => Ascii.eqb c "/"%char
  | String _ r => endswith_slash r
  end.

Definition path_join (a b : string) : string :=
  if startswith_slash b then b
  else match a with
       | EmptyString => b
       | _ => if endswith_slash a then String.append a b
              else String.append a (String "/"%char b)
       end.

End Py.

(** ** The libraries the notebook calls

    Nothing of them is under the repository's notebook: each call is a
    field, and a call that fails returns [Raise].  A field takes the
    arguments in the order the notebook writes them.  Three calls read a
    state that lives outside their arguments: [random.sample] reads and
    advances the generator of module [random], and [TemporaryDirectory] and
    the timer's clock read the host. *)
Record library : Type := Library {
  (** objects handed from one library call to the next *)
  Host : Type;
  RandomState : Type;
  Processor : Type;
  Dataset : Type;
  DataLoader : Type;
  Model : Type;
  Predictions : Type;
  DataFrame : Type;
  (** built-in [float(s)]; [None] is its [ValueError] *)
  float_of_str : string -> option float;
  (** [TemporaryDirectory().name] *)
  TemporaryDirectory_name : Host -> result string * Host;
  (** [timeit.default_timer()], read by [Timer] on entry and on exit *)
  default_timer : Host -> float * Host;
  (** [random.seed(a)]: the generator state that [a] determines *)
  random_seed : Z -> RandomState;
  (** [random.sample(population, k)] for a population of [n] elements: the
      position in the population of each of the [k] picks, and the
      generator state afterwards *)
  random_sample_positions :
    RandomState -> nat -> nat -> (nat -> nat) * RandomState;
  torch_manual_seed : Z -> result unit;
  maybe_download : string -> string -> string -> result string;
  read_conll_file : string -> string -> result (list sentence * list labels);
  (** [train_test_split] on arrays of [n] elements.  The library shuffles
      the positions 0..n-1 and cuts the shuffle in two, the same for every
      array of the call: the field gives the shuffle, as the transpositions
      it is made of, and the number of positions that go to the test part.
      Every ordered split of the positions into a test part and a training
      part is such a cut. *)
  train_test_split_shuffle :
    nat -> float -> Z -> result (list (nat * nat) * nat);
  pd_DataFrame :
    string * list string -> string * list string -> result DataFrame;
  DataFrame_head : DataFrame -> Z -> result DataFrame;
  TokenClassificationProcessor : string -> bool -> string -> result Processor;
  create_label_map : list labels -> string -> result LabelMap;
  preprocess :
    Processor -> list sentence -> Z -> option (list labels) -> LabelMap ->
    string -> result Dataset;
  dataloader_from_dataset :
    Dataset -> Z -> option Z -> bool -> bool -> result DataLoader;
  TokenClassifier : string -> Z -> string -> result Model;
  (** [model.fit] updates the model in place: it returns the fitted one *)
  fit :
    Model -> DataLoader -> Z -> option Z -> Z -> float -> float -> float ->
    Z -> bool -> Z -> result Model;
  predict : Model -> DataLoader -> option Z -> bool -> result Predictions;
  get_true_test_labels : Model -> LabelMap -> Dataset -> result (list labels);
  get_predicted_token_labels :
    Model -> Predictions -> LabelMap -> Dataset -> result (list labels);
  classification_report : list labels -> list labels -> Z -> result string
}.

Section Notebook.

Variable L : library.

(** ** Library calls as events *)

(** What [print] is given. *)
Inductive printed : Type :=
| PStr (s : string)
| PFormat (template : string) (x : float)
| PFrame (df : DataFrame L).

(** One constructor per call the notebook makes, with the arguments it
    passes. *)
Inductive event : Type :=
| EvTemporaryDirectory
| EvManualSeed (seed : Z)
| EvMaybeDownload (url file_name work_directory : string)
| EvReadConllFile (file_path sep : string)
| EvRandomSeed (a : Z)
| EvRandomSample (population : list (sentence * labels)) (k : Z)
| EvTrainTestSplit (X : list sentence) (y : list labels)
    (test_size : float) (random_state : Z)
| EvDataFrame (col1 col2 : string * list string)
| EvHead (df : DataFrame L) (n : Z)
| EvDisplay (df : DataFrame L)
| EvProcessor (model_name : string) (to_lower : bool) (cache_dir : string)
| EvCreateLabelMap (label_lists : list labels) (trailing_piece_tag : string)
| EvPreprocess (p : Processor L) (text : list sentence) (max_len : Z)
    (labs : option (list labels)) (lm : LabelMap) (trailing_piece_tag : string)
| EvDataLoader (ds : Dataset L) (batch_size : Z) (num_gpus : option Z)
    (shuffle distributed : bool)
| EvTokenClassifier (model_name : string) (num_labels : Z) (cache_dir : string)
| EvFit (m : Model L) (train_dataloader : DataLoader L) (num_epochs : Z)
    (num_gpus : option Z) (local_rank : Z)
    (weight_decay learning_rate adam_epsilon : float) (warmup_steps : Z)
    (verbose : bool) (seed : Z)
| EvPredict (m : Model L) (test_dataloader : DataLoader L)
    (num_gpus : option Z) (verbose : bool)
| EvTrueLabels (m : Model L) (lm : LabelMap) (ds : Dataset L)
| EvPredictedLabels (m : Model L) (predictions : Predictions L)
    (lm : LabelMap) (ds : Dataset L)
| EvClassificationReport (y_true y_pred : list labels) (digits : Z)
| EvPrint (args : list printed)
| EvGlue (name : string) (scrap : float).

Inductive outcome : Type :=
| Returned
| Raised (e : exn).

Definition outcome_of {A : Type} (r : result A) : outcome :=
  match r with
  | Ok _ => Returned
  | Raise e => Raised e
  end.

(** ** The world and the monad of a running notebook *)

Record world : Type := World {
  trace : list (event * outcome);
  random_state : RandomState L;
  host : Host L;
  scraps : list (string * float)
}.

Definition M (A : Type) : Type := world -> result A * world.

Definition ret {A : Type} (a : A) : M A := fun w => (Ok a, w).

Definition bind {A B : Type} (m : M A) (f : A -> M B) : M B :=
  fun w =>
    match m w with
    | (Ok a, w') => f a w'
    | (Raise e, w') => (Raise e, w')
    end.

(** The value of one of the notebook's own expressions; its exception, if
    any, is raised where it stands. *)
Definition lift {A : Type} (r : result A) : M A := fun w => (r, w).

Definition log (ev : event) (o : outcome) (w : world) : world :=
  World (trace w ++ [(ev, o)]) (random_state w) (host w) (scraps w).

(** A call of a library function of its arguments alone. *)
Definition call {A : Type} (ev : event) (r : result A) : M A :=
  fun w => (r, log ev (outcome_of r) w).

End Notebook.

Arguments World {L} trace random_state host scraps.
Arguments trace {L} w.
Arguments random_state {L} w.
Arguments host {L} w.
Arguments scraps {L} w.
Arguments PStr {L} s.
Arguments PFormat {L} template x.
Arguments PFrame {L} df.
Arguments EvTemporaryDirectory {L}.
Arguments EvManualSeed {L} seed.
Arguments EvMaybeDownload {L} url file_name work_directory.
Arguments EvReadConllFile {L} file_path sep.
Arguments EvRandomSeed {L} a.
Arguments EvRandomSample {L} population k.
Arguments EvTrainTestSplit {L} X y test_size random_state.
Arguments EvDataFrame {L} col1 col2.
Arguments EvHead {L} df n.
Arguments EvDisplay {L} df.
Arguments EvProcessor {L} model_name to_lower cache_dir.
Arguments EvCreateLabelMap {L} label_lists trailing_piece_tag.
Arguments EvPreprocess {L} p text max_len labs lm trailing_piece_tag.
Arguments EvDataLoader {L} ds batch_size num_gpus shuffle distributed.
Arguments EvTokenClassifier {L} model_name num_labels cache_dir.
Arguments EvFit {L} m train_dataloader num_epochs num_gpus local_rank
  weight_decay learning_rate adam_epsilon warmup_steps verbose seed.
Arguments EvPredict {L} m test_dataloader num_gpus verbose.
Arguments EvTrueLabels {L} m lm ds.
Arguments EvPredictedLabels {L} m predictions lm ds.
Arguments EvClassificationReport {L} y_true y_pred digits.
Arguments EvPrint {L} args.
Arguments EvGlue {L} name scrap.
Arguments ret {L A} a.
Arguments bind {L A B} m f.
Arguments lift {L A} r.
Arguments call {L A} ev r.
Arguments log {L} ev o w.

Declare Scope nb_scope.
Delimit Scope nb_scope with nb.
Notation "x <- m ;; k" := (bind m (fun x => k))
  (at level 61, m at next level, right associativity) : nb_scope.
Notation "' pat <- m ;; k" := (bind m (fun x => match x with pat => k end))
  (at level 61, pat pattern, m at next level, right associativity) : nb_scope.
Notation "m ;; k" := (bind m (fun _ => k))
  (at level 61, right associativity) : nb_scope.

(** ** The cells *)

#[local] Open Scope string_scope.
#[local] Open Scope list_scope.
#[local] Open Scope Z_scope.
#[local] Open Scope nb_scope.

(** The newline character. *)
Definition LF : ascii := "010"%char.

(** The notebook's configuration variables, as cell 3 leaves them. *)
Record config : Type := Config {
  DATA_URL : string;
  TEST_DATA_FRACTION : float;
  SAMPLE_RATIO : Py.number;
  DATA_PATH : string;
  CACHE_DIR : string;
  RANDOM_SEED : Z;
  NUM_TRAIN_EPOCHS : Z;
  MODEL_NAME : string;
  DO_LOWER_CASE : bool;
  MAX_SEQ_LENGTH : Z;
  TRAILING_PIECE_TAG : string;
  NUM_GPUS : option Z;
  BATCH_SIZE : Z
}.

(** The variables cell 4 leaves: the sub-sample and its two parts. *)
Record data : Type := Data {
  sentence_list : list sentence;
  labels_list : list labels;
  train_sentence_list : list sentence;
  test_sentence_list : list sentence;
  train_labels_list : list labels;
  test_labels_list : list labels
}.

(** The positions 0..n-1 after the transpositions [swaps], applied in
    order; a transposition that names a position outside the range changes
    nothing. *)
Definition transpose (n i j : nat) (order : list nat) : list nat :=
  if (i <? n)%nat && (j <? n)%nat then
    map (fun x => if (x =? i)%nat then j else if (x =? j)%nat then i else x)
        order
  else order.

Definition shuffled (n : nat) (swaps : list (nat * nat)) : list nat :=
  fold_left (fun order s => transpose n (fst s) (snd s) order) swaps (seq 0 n).

Section Cells.

Variable L : library.

(** The variables cell 6 leaves. *)
Record prepared : Type := Prepared {
  processor : Processor L;
  label_map : LabelMap;
  train_dataset : Dataset L;
  train_dataloader : DataLoader L;
  test_dataset : Dataset L;
  test_dataloader : DataLoader L
}.

(** The variables of a completed run that the properties below speak of.
    [model] is the fitted model; [preds] and [predicted_labels] are the
    ones of cells 8 and 10, before cell 11 rebinds the two names to the
    predictions for its example sentences. *)
Record globals : Type := Globals {
  cfg : config;
  dat : data;
  prep : prepared;
  model : Model L;
  preds : Predictions L;
  true_labels : list labels;
  predicted_labels : list labels;
  report : string
}.

(** *** Calls that touch the world *)

(** [TemporaryDirectory().name] *)
Definition TemporaryDirectory : M L string :=
  fun w =>
    let (r, h) := TemporaryDirectory_name L (host w) in
    (r, World (trace w ++ [(EvTemporaryDirectory, outcome_of r)])
          (random_state w) h (scraps w)).

(** [random.seed(a)] *)
Definition random_seed_ (a : Z) : M L unit :=
  fun w =>
    (Ok tt, World (trace w ++ [(EvRandomSeed a, Returned)])
              (random_seed L a) (host w) (scraps w)).

(** [random.sample(population, k)]: [ValueError] when [k] is negative or
    larger than the population, else the elements at the positions the
    generator picks. *)
Definition random_sample (population : list (sentence * labels)) (k : Z)
  : M L (list (sentence * labels)) :=
  fun w =>
    let n := List.length population in
    if (k <? 0) || (Z.of_nat n <? k) then
      (Raise ValueError, log (EvRandomSample population k) (Raised ValueError) w)
    else
      let (pos, rs) :=
        random_sample_positions L (random_state w) n (Z.to_nat k) in
      let r := Py.pick population (map pos (seq 0 (Z.to_nat k))) in
      (r, World (trace w ++ [(EvRandomSample population k, outcome_of r)])
            rs (host w) (scraps w)).

(** The positions [train_test_split] puts in the training part and in the
    test part of arrays of [n] elements: the shuffle up to the cut is the
    test part, the rest of it the training part. *)
Definition split_indices (n : nat) (test_size : float) (random_state : Z)
  : result (list nat * list nat) :=
  match train_test_split_shuffle L n test_size random_state with
  | Raise e => Raise e
  | Ok (swaps, n_test) =>
      let order := shuffled n swaps in
      Ok (skipn n_test order, firstn n_test order)
  end.

(** [train_test_split(X, y, test_size=..., random_state=...)]: both arrays
    are indexed by the positions of the split (the library refuses arrays
    of different lengths). *)
Definition train_test_split (X : list sentence) (y : list labels)
    (test_size : float) (random_state : Z)
  : result (list sentence * list sentence * list labels * list labels) :=
  if negb (Nat.eqb (List.length X) (List.length y)) then Raise ValueError
  else
    match split_indices (List.length X) test_size random_state with
    | Raise e => Raise e
    | Ok (train, test) =>
        match Py.pick X train, Py.pick X test, Py.pick y train, Py.pick y test with
        | Ok a, Ok b, Ok c, Ok d => Ok (a, b, c, d)
        | _, _, _, _ => Raise IndexError
        end
    end.

(** [print( *args )] and the display of a cell's last expression. *)
Definition print (args : list (printed L)) : M L unit :=
  fun w => (Ok tt, log (EvPrint args) Returned w).

Definition display (df : DataFrame L) : M L unit :=
  fun w => (Ok tt, log (EvDisplay df) Returned w).

(** [sb.glue(name, scrap)]: records the scrap as an output of the
    notebook. *)
Definition glue (name : string) (scrap : float) : M L unit :=
  fun w =>
    (Ok tt, World (trace w ++ [(EvGlue name scrap, Returned)])
              (random_state w) (host w) (scraps w ++ [(name, scrap)])).

(** [float(s)] *)
Definition float_ (s : string) : M L float :=
  lift (match float_of_str L s with
        | Some f => Ok f
        | None => Raise ValueError
        end).

(** One reading of the clock. *)
Definition tick (w : world L) : float * world L :=
  let (t, h) := default_timer L (host w) in
  (t, World (trace w) (random_state w) h (scraps w)).

(** Modelled from the spec: [with Timer() as t: body], where [Timer] is
    [utils_nlp.common.timer.Timer], which is not among the sources.  The
    timer reads the clock on entry and on exit; the spec's error-handling
    section says no failure is handled, so on an exception of the body the
    exit reads the clock and lets the exception pass.  The result carries
    [t.interval]. *)
Definition with_Timer {A : Type} (body : M L A) : M L (A * float) :=
  fun w =>
    let (t0, w0) := tick w in
    match body w0 with
    | (Ok a, w1) => let (t1, w2) := tick w1 in (Ok (a, (t1 - t0)%float), w2)
    | (Raise e, w1) => (Raise e, snd (tick w1))
    end.

(** [for x in xs: body] *)
Fixpoint for_each {A : Type} (xs : list A) (body : A -> M L unit) : M L unit :=
  match xs with
  | [] => ret tt
  | x :: rest => body x ;; for_each rest body
  end.

(** [range(n)] *)
Definition range (n : nat) : list Z := map Z.of_nat (seq 0 n).

(** *** Cell 2 *)
Definition cell_2 : bool := false.

(** *** Cell 3: configuration *)
Definition quick_run (c : config) : config :=
  Config (DATA_URL c) (TEST_DATA_FRACTION c) (Py.PyFloat 0.1) (DATA_PATH c)
    (CACHE_DIR c) (RANDOM_SEED c) 1 (MODEL_NAME c) (DO_LOWER_CASE c)
    (MAX_SEQ_LENGTH c) (TRAILING_PIECE_TAG c) (NUM_GPUS c) (BATCH_SIZE c).

Definition cell_3 (QUICK_RUN : bool) : M L config :=
  let DATA_URL :=
    String.append
      "https://raw.githubusercontent.com/juand-r/entity-recognition-datasets"
      "/master/data/wikigold/CONLL-format/data/wikigold.conll.txt" in
  let TEST_DATA_FRACTION := 0.3%float in
  let SAMPLE_RATIO := Py.PyInt 1 in
  DATA_PATH <- TemporaryDirectory ;;
  CACHE_DIR <- TemporaryDirectory ;;
  let RANDOM_SEED := 100 in
  call (EvManualSeed RANDOM_SEED) (torch_manual_seed L RANDOM_SEED) ;;
  let NUM_TRAIN_EPOCHS := 5 in
  let MODEL_NAME := "bert-base-cased" in
  let DO_LOWER_CASE := false in
  let MAX_SEQ_LENGTH := 200 in
  let TRAILING_PIECE_TAG := "X" in
  let NUM_GPUS := None in
  let BATCH_SIZE := 16 in
  let c :=
    Config DATA_URL TEST_DATA_FRACTION SAMPLE_RATIO DATA_PATH CACHE_DIR
      RANDOM_SEED NUM_TRAIN_EPOCHS MODEL_NAME DO_LOWER_CASE MAX_SEQ_LENGTH
      TRAILING_PIECE_TAG NUM_GPUS BATCH_SIZE in
  ret (if QUICK_RUN then quick_run c else c).

(** *** Cell 4: download, parse, sub-sample, split *)

(** [sample_size = int(SAMPLE_RATIO * len(sentence_list))] *)
Definition sample_size (c : config) (sentence_list : list sentence) : result Z :=
  Py.int (Py.mul (SAMPLE_RATIO c) (Py.PyInt (Z.of_nat (List.length sentence_list)))).

(** The sub-sampling statement of cell 4. *)
Definition sub_sample (c : config) (sentence_list : list sentence)
    (labels_list : list labels) : M L (list sentence * list labels) :=
  random_seed_ (RANDOM_SEED c) ;;
  sample_size <- lift (sample_size c sentence_list) ;;
  sampled <- random_sample (combine sentence_list labels_list) sample_size ;;
  lift (Py.unzip2 sampled).

Definition cell_4 (c : config) : M L data :=
  file_name <- lift (Py.getitem (Py.split_sep "/" (DATA_URL c)) (-1)) ;;
  call (EvMaybeDownload (DATA_URL c) file_name (DATA_PATH c))
       (maybe_download L (DATA_URL c) file_name (DATA_PATH c)) ;;
  let data_file := Py.path_join (DATA_PATH c) file_name in
  '(sentence_list, labels_list) <-
     call (EvReadConllFile data_file " ") (read_conll_file L data_file " ") ;;
  '(sentence_list, labels_list) <- sub_sample c sentence_list labels_list ;;
  '(train_sentence_list, test_sentence_list,
    train_labels_list, test_labels_list) <-
     call (EvTrainTestSplit sentence_list labels_list
             (TEST_DATA_FRACTION c) (RANDOM_SEED c))
          (train_test_split sentence_list labels_list
             (TEST_DATA_FRACTION c) (RANDOM_SEED c)) ;;
  ret (Data sentence_list labels_list train_sentence_list test_sentence_list
         train_labels_list test_labels_list).

(** *** Cell 5: show the first training sentence *)
Definition cell_5 (d : data) : M L unit :=
  tokens <- lift (Py.getitem (train_sentence_list d) 0) ;;
  tags <- lift (Py.getitem (train_labels_list d) 0) ;;
  df <- call (EvDataFrame ("token", tokens) ("label", tags))
             (pd_DataFrame L ("token", tokens) ("label", tags)) ;;
  df <- call (EvHead df 11) (DataFrame_head L df 11) ;;
  display df.

(** *** Cell 6: datasets and data loaders *)
Definition cell_6 (c : config) (d : data) : M L prepared :=
  processor <-
    call (EvProcessor (MODEL_NAME c) (DO_LOWER_CASE c) (CACHE_DIR c))
         (TokenClassificationProcessor L (MODEL_NAME c) (DO_LOWER_CASE c)
            (CACHE_DIR c)) ;;
  label_map <-
    call (EvCreateLabelMap (labels_list d) (TRAILING_PIECE_TAG c))
         (create_label_map L (labels_list d) (TRAILING_PIECE_TAG c)) ;;
  train_dataset <-
    call (EvPreprocess processor (train_sentence_list d) (MAX_SEQ_LENGTH c)
            (Some (train_labels_list d)) label_map (TRAILING_PIECE_TAG c))
         (preprocess L processor (train_sentence_list d) (MAX_SEQ_LENGTH c)
            (Some (train_labels_list d)) label_map (TRAILING_PIECE_TAG c)) ;;
  train_dataloader <-
    call (EvDataLoader train_dataset (BATCH_SIZE c) (NUM_GPUS c) true false)
         (dataloader_from_dataset L train_dataset (BATCH_SIZE c) (NUM_GPUS c)
            true false) ;;
  test_dataset <-
    call (EvPreprocess processor (test_sentence_list d) (MAX_SEQ_LENGTH c)
            (Some (test_labels_list d)) label_map (TRAILING_PIECE_TAG c))
         (preprocess L processor (test_sentence_list d) (MAX_SEQ_LENGTH c)
            (Some (test_labels_list d)) label_map (TRAILING_PIECE_TAG c)) ;;
  test_dataloader <-
    call (EvDataLoader test_dataset (BATCH_SIZE c) (NUM_GPUS c) false false)
         (dataloader_from_dataset L test_dataset (BATCH_SIZE c) (NUM_GPUS c)
            false false) ;;
  ret (Prepared processor label_map train_dataset train_dataloader
         test_dataset test_dataloader).

(** *** Cell 7: instantiate and fit *)
Definition cell_7 (c : config) (p : prepared) : M L (Model L) :=
  let num_labels := Z.of_nat (List.length (label_map p)) in
  model <-
    call (EvTokenClassifier (MODEL_NAME c) num_labels (CACHE_DIR c))
         (TokenClassifier L (MODEL_NAME c) num_labels (CACHE_DIR c)) ;;
  '(model, interval) <-
    with_Timer
      (call (EvFit model (train_dataloader p) (NUM_TRAIN_EPOCHS c) (NUM_GPUS c)
               (-1) 0.0%float 5e-5%float 1e-8%float 0 false (RANDOM_SEED c))
            (fit L model (train_dataloader p) (NUM_TRAIN_EPOCHS c) (NUM_GPUS c)
               (-1) 0.0%float 5e-5%float 1e-8%float 0 false (RANDOM_SEED c))) ;;
  print [PFormat "Training time : {:.3f} hrs" (interval / 3600)%float] ;;
  ret model.

(** *** Cell 8: predict on the test loader *)
Definition cell_8 (p : prepared) (model : Model L) : M L (Predictions L) :=
  '(preds, interval) <-
    with_Timer
      (call (EvPredict model (test_dataloader p) None true)
            (predict L model (test_dataloader p) None true)) ;;
  print [PFormat "Prediction time : {:.3f} hrs" (interval / 3600)%float] ;;
  ret preds.

(** *** Cell 9: the true labels of the test dataset *)
Definition cell_9 (p : prepared) (model : Model L) : M L (list labels) :=
  call (EvTrueLabels model (label_map p) (test_dataset p))
       (get_true_test_labels L model (label_map p) (test_dataset p)).

(** *** Cell 10: predicted labels and the classification report *)
Definition cell_10 (p : prepared) (model : Model L) (preds : Predictions L)
    (true_labels : list labels) : M L (list labels * string) :=
  predicted_labels <-
    call (EvPredictedLabels model preds (label_map p) (test_dataset p))
         (get_predicted_token_labels L model preds (label_map p)
            (test_dataset p)) ;;
  report <-
    call (EvClassificationReport true_labels predicted_labels 2)
         (classification_report L true_labels predicted_labels 2) ;;
  print [PStr report] ;;
  ret (predicted_labels, report).

(** *** Cell 11: score two example sentences *)
Definition sample_text : list string :=
  ["Is it true that Jane works at Microsoft?";
   "Joe now lives in Copenhagen."].

Definition cell_11 (c : config) (p : prepared) (model : Model L) : M L unit :=
  let sample_tokens := map Py.split sample_text in
  sample_dataset <-
    call (EvPreprocess (processor p) sample_tokens (MAX_SEQ_LENGTH c) None
            (label_map p) (TRAILING_PIECE_TAG c))
         (preprocess L (processor p) sample_tokens (MAX_SEQ_LENGTH c) None
            (label_map p) (TRAILING_PIECE_TAG c)) ;;
  sample_dataloader <-
    call (EvDataLoader sample_dataset (BATCH_SIZE c) None false false)
         (dataloader_from_dataset L sample_dataset (BATCH_SIZE c) None
            false false) ;;
  preds <-
    call (EvPredict model sample_dataloader None true)
         (predict L model sample_dataloader None true) ;;
  predicted_labels <-
    call (EvPredictedLabels model preds (label_map p) sample_dataset)
         (get_predicted_token_labels L model preds (label_map p)
            sample_dataset) ;;
  for_each (range (List.length sample_text)) (fun i =>
    text <- lift (Py.getitem sample_text i) ;;
    print [PStr (String LF EmptyString); PStr text] ;;
    tokens <- lift (Py.getitem sample_tokens i) ;;
    tags <- lift (Py.getitem predicted_labels i) ;;
    df <- call (EvDataFrame ("tokens", tokens) ("labels", tags))
               (pd_DataFrame L ("tokens", tokens) ("labels", tags)) ;;
    print [PFrame df]).

(** *** Cell 12: glue the metrics of the report *)
Definition cell_12 (report : string) : M L unit :=
  line <- lift (Py.getitem (Py.split_sep LF report) (-2)) ;;
  let report_splits := Py.split line in
  s <- lift (Py.getitem report_splits 2) ;;
  x <- float_ s ;;
  glue "precision" x ;;
  s <- lift (Py.getitem report_splits 3) ;;
  x <- float_ s ;;
  glue "recall" x ;;
  s <- lift (Py.getitem report_splits 4) ;;
  x <- float_ s ;;
  glue "f1" x.

(** *** The notebook, run top to bottom

    [QUICK_RUN] is the flag of cell 2, which the reader of the notebook is
    told to edit. *)
Definition notebook_with (QUICK_RUN : bool) : M L globals :=
  c <- cell_3 QUICK_RUN ;;
  d <- cell_4 c ;;
  cell_5 d ;;
  p <- cell_6 c d ;;
  model <- cell_7 c p ;;
  preds <- cell_8 p model ;;
  true_labels <- cell_9 p model ;;
  '(predicted_labels, report) <- cell_10 p model preds true_labels ;;
  cell_11 c p model ;;
  cell_12 report ;;
  ret (Globals c d p model preds true_labels predicted_labels report).

Definition notebook : M L globals := notebook_with cell_2.

End Cells.

Arguments Prepared {L} _ _ _ _ _ _.
Arguments processor {L} p.
Arguments label_map {L} p.
Arguments train_dataset {L} p.
Arguments train_dataloader {L} p.
Arguments test_dataset {L} p.
Arguments test_dataloader {L} p.
Arguments Globals {L} _ _ _ _ _ _ _ _.
Arguments cfg {L} g.
Arguments dat {L} g.
Arguments prep {L} g.
Arguments model {L} g.
Arguments preds {L} g.
Arguments true_labels {L} g.
Arguments predicted_labels {L} g.
Arguments report {L} g.
Arguments with_Timer {L A} body.
Arguments for_each {L A} xs body.

(** ** A small library to run the notebook on

    Every call succeeds unless [failing] names it (with [FewLabels] the
    predicted labels come back for the first sentence only, with
    [NewerReport] the report is [newer_report]).  The corpus has twenty
    one-token sentences; the sample picks the first [k] positions; the
    split puts the first three tenths (rounded up) of the positions in the
    test part; the report is the one recorded in the notebook's output of
    cell 10. *)
Module Toy.

(** [float(s)] on a plain decimal literal, digits with at most one point:
    the quotient of two integers that binary64 holds exactly, so the one
    rounding of the division is the rounding of [float(s)].  That holds up
    to fifteen digits, which is all the examples below use. *)
Definition digit (c : ascii) : option Z :=
  let n := Z.of_N (N_of_ascii c) in
  if (48 <=? n) && (n <=? 57) then Some (n - 48) else None.

Fixpoint digits (acc : Z) (count : nat) (s : string) : option (Z * nat * string) :=
  match s with
  | EmptyString => Some (acc, count, EmptyString)
  | String c r =>
      match digit c with
      | Some d => digits (10 * acc + d) (S count) r
      | None => Some (acc, count, s)
      end
  end.

Definition decimal_float (s : string) : option float :=
  match digits 0 0 s with
  | Some (whole, S _, EmptyString) => Some (Py.float_of_int whole)
  | Some (whole, S _, String "." r) =>
      match digits whole 0 r with
      | Some (num, places, EmptyString) =>
          Some (Py.float_of_int num / Py.float_of_int (10 ^ Z.of_nat places))%float
      | _ => None
      end
  | _ => None
  end.

Definition corpus : list sentence * list labels :=
  (map (fun i => [String (ascii_of_nat (65 + i)) EmptyString]) (seq 0 20),
   map (fun i => [if Nat.even i then "O" else "I-PER"]) (seq 0 20)).

(** The classification report printed by cell 10 in the notebook as it
    was saved. *)
Definition recorded_report : string :=
  String.concat (String LF EmptyString)
    ["           precision    recall  f1-score   support";
     "";
     "     MISC       0.68      0.67      0.68       221";
     "      LOC       0.79      0.85      0.82       317";
     "      ORG       0.73      0.81      0.76       274";
     "      PER       0.92      0.93      0.92       257";
     "";
     "micro avg       0.78      0.82      0.80      1069";
     "macro avg       0.78      0.82      0.80      1069";
     ""].

(** A report laid out as later releases of the metrics library print it:
    a weighted average follows the macro average. *)
Definition newer_report : string :=
  String.concat (String LF EmptyString)
    ["              precision    recall  f1-score   support";
     "";
     "         LOC       0.79      0.85      0.82       317";
     "        MISC       0.68      0.67      0.68       221";
     "         ORG       0.73      0.81      0.76       274";
     "         PER       0.92      0.93      0.92       257";
     "";
     "   micro avg       0.78      0.82      0.80      1069";
     "   macro avg       0.78      0.81      0.79      1069";
     "weighted avg       0.79      0.82      0.80      1069";
     ""].

(** Which call of the small library fails or differs, if any. *)
Inductive failure : Type :=
| NoFailure
| DownloadFails
| FitFails
| FewLabels
| NewerReport.

Definition dataset : Type := list sentence * option (list labels).

Definition lib (failing : failure) : library :=
  Library
    (* Host *) nat
    (* RandomState *) Z
    (* Processor *) unit
    (* Dataset *) dataset
    (* DataLoader *) (dataset * bool)
    (* Model *) (list (dataset * bool))
    (* Predictions *) (list labels)
    (* DataFrame *) (list (string * list string))
    decimal_float
    (fun h => (Ok (if Nat.even h then "/tmp/tmpa" else "/tmp/tmpb"), S h))
    (fun h => (Py.float_of_int (Z.of_nat h), S h))
    (fun a => a)
    (fun rs n k => (fun i => i, rs + 1))
    (fun _ => Ok tt)
    (fun url file_name dir =>
       match failing with
       | DownloadFails => Raise (LibraryError "HTTPError")
       | _ => Ok (Py.path_join dir file_name)
       end)
    (fun _ _ => Ok corpus)
    (fun n _ _ =>
       match n with
       | O => Raise ValueError
       | _ => Ok ([], ((3 * n + 9) / 10)%nat)
       end)
    (fun col1 col2 => Ok [col1; col2])
    (fun df n => Ok df)
    (fun _ _ _ => Ok tt)
    (fun _ tag => Ok [("O", 0); ("I-PER", 1); (tag, 2)])
    (fun _ text _ labs _ _ => Ok (text, labs))
    (fun ds _ _ shuffle _ => Ok (ds, shuffle))
    (fun _ _ _ => Ok [])
    (fun m loader _ _ _ _ _ _ _ _ _ =>
       match failing with
       | FitFails => Raise (LibraryError "RuntimeError")
       | _ => Ok (m ++ [loader])
       end)
    (fun _ loader _ _ => Ok (map (map (fun _ => "O")) (fst (fst loader))))
    (fun _ _ ds => Ok (match snd ds with Some l => l | None => [] end))
    (fun _ preds _ _ =>
       match failing with
       | FewLabels => Ok (firstn 1 preds)
       | _ => Ok preds
       end)
    (fun _ _ _ =>
       match failing with
       | NewerReport => Ok newer_report
       | _ => Ok recorded_report
       end).

(** The world before the first cell runs. *)
Definition start (failing : failure) : world (lib failing) :=
  @World (lib failing) [] 0 0%nat [].

End Toy.

(** ** What the properties speak of *)

(** A kernel that has run nothing yet: no call logged, no scrap glued. *)
Definition fresh_kernel {L : library} (rs : RandomState L) (h : Host L)
  : world L :=
  World [] rs h [].

(** The world after calls that all returned and touched nothing but the
    log. *)
Definition returned {L : library} (evs : list (event L)) (w : world L)
  : world L :=
  World (trace w ++ map (fun ev => (ev, Returned)) evs)
    (random_state w) (host w) (scraps w).

(** The configuration cell 3 leaves, given the two temporary names. *)
Definition configuration (QUICK_RUN : bool) (DATA_PATH CACHE_DIR : string)
  : config :=
  let c :=
    Config
      (String.append
         "https://raw.githubusercontent.com/juand-r/entity-recognition-datasets"
         "/master/data/wikigold/CONLL-format/data/wikigold.conll.txt")
      0.3%float (Py.PyInt 1) DATA_PATH CACHE_DIR 100 5 "bert-base-cased"
      false 200 "X" None 16 in
  if QUICK_RUN then quick_run c else c.

(** The path cell 4 reads,
    [os.path.join(DATA_PATH, DATA_URL.split("/")[-1])]: a split is never
    empty, so its last element is what the index -1 returns. *)
Definition data_file (c : config) : string :=
  Py.path_join (DATA_PATH c)
    (List.last (Py.split_sep "/" (DATA_URL c)) EmptyString).

(** The Python name of the function an event calls. *)
Definition callee {L : library} (ev : event L) : string :=
  match ev with
  | EvTemporaryDirectory => "TemporaryDirectory"
  | EvManualSeed _ => "torch.manual_seed"
  | EvMaybeDownload _ _ _ => "maybe_download"
  | EvReadConllFile _ _ => "read_conll_file"
  | EvRandomSeed _ => "random.seed"
  | EvRandomSample _ _ => "random.sample"
  | EvTrainTestSplit _ _ _ _ => "train_test_split"
  | EvDataFrame _ _ => "pd.DataFrame"
  | EvHead _ _ => "head"
  | EvDisplay _ => "display"
  | EvProcessor _ _ _ => "TokenClassificationProcessor"
  | EvCreateLabelMap _ _ => "create_label_map"
  | EvPreprocess _ _ _ _ _ _ => "preprocess"
  | EvDataLoader _ _ _ _ _ => "dataloader_from_dataset"
  | EvTokenClassifier _ _ _ => "TokenClassifier"
  | EvFit _ _ _ _ _ _ _ _ _ _ _ => "fit"
  | EvPredict _ _ _ _ => "predict"
  | EvTrueLabels _ _ _ => "get_true_test_labels"
  | EvPredictedLabels _ _ _ _ => "get_predicted_token_labels"
  | EvClassificationReport _ _ _ => "classification_report"
  | EvPrint _ => "print"
  | EvGlue _ _ => "sb.glue"
  end.

Definition callees {L : library} (tr : list (event L * outcome))
  : list string :=
  map (fun x => callee (fst x)) tr.

(** The steps of the pipeline the notebook is described by. *)
Inductive step : Type :=
| Configuration
| Download
| Parse
| Split
| WrapDataset
| WrapLoader
| Instantiate
| Fit
| Predict
| Metrics
| PrintExamples.

Definition pipeline : list step :=
  [Configuration; Download; Parse; Split; WrapDataset; WrapLoader;
   Instantiate; Fit; Predict; Metrics; PrintExamples].

Definition step_index (s : step) : nat :=
  match s with
  | Configuration => 0
  | Download => 1
  | Parse => 2
  | Split => 3
  | WrapDataset => 4
  | WrapLoader => 5
  | Instantiate => 6
  | Fit => 7
  | Predict => 8
  | Metrics => 9
  | PrintExamples => 10
  end%nat.

(** The step a call belongs to.  The calls of the configuration cell are
    the two temporary directories and the torch seed; the example
    predictions are printed by the two [print] forms of cell 11 (a
    newline and a text, and a data frame).  A call that is none of the
    listed steps has no step. *)
Definition step_of {L : library} (ev : event L) : option step :=
  match ev with
  | EvTemporaryDirectory | EvManualSeed _ => Some Configuration
  | EvMaybeDownload _ _ _ => Some Download
  | EvReadConllFile _ _ => Some Parse
  | EvTrainTestSplit _ _ _ _ => Some Split
  | EvPreprocess _ _ _ _ _ _ => Some WrapDataset
  | EvDataLoader _ _ _ _ _ => Some WrapLoader
  | EvTokenClassifier _ _ _ => Some Instantiate
  | EvFit _ _ _ _ _ _ _ _ _ _ _ => Some Fit
  | EvPredict _ _ _ _ => Some Predict
  | EvClassificationReport _ _ _ => Some Metrics
  | EvPrint [PStr _; PStr _] | EvPrint [PFrame _] => Some PrintExamples
  | _ => None
  end.

Fixpoint steps {L : library} (tr : list (event L * outcome)) : list step :=
  match tr with
  | [] => []
  | (ev, _) :: rest =>
      match step_of ev with
      | Some s => s :: steps rest
      | None => steps rest
      end
  end.

(** No step runs before a step that precedes it in the pipeline. *)
Fixpoint in_order (l : list step) : bool :=
  match l with
  | a :: (b :: _) as rest => (step_index a <=? step_index b)%nat && in_order rest
  | _ => true
  end.

(** The steps in the order in which each one is first seen. *)
Fixpoint first_seen (seen : list nat) (l : list step) : list step :=
  match l with
  | [] => []
  | s :: rest =>
      if existsb (Nat.eqb (step_index s)) seen then first_seen seen rest
      else s :: first_seen (step_index s :: seen) rest
  end.

(** The steps of a completed run, call by call. *)
Definition observed_steps : list step :=
  [Configuration; Configuration; Configuration; Download; Parse; Split;
   WrapDataset; WrapLoader; WrapDataset; WrapLoader; Instantiate; Fit;
   Predict; Metrics; WrapDataset; WrapLoader; Predict;
   PrintExamples; PrintExamples; PrintExamples; PrintExamples].

(** Projections of a log: the epochs and loaders given to [fit], the
    loaders given to [predict], the inputs of the classification report,
    the seeds passed. *)
Fixpoint fit_epochs {L : library} (tr : list (event L * outcome)) : list Z :=
  match tr with
  | [] => []
  | (EvFit _ _ n _ _ _ _ _ _ _ _, _) :: rest => n :: fit_epochs rest
  | _ :: rest => fit_epochs rest
  end.

Fixpoint fit_loaders {L : library} (tr : list (event L * outcome))
  : list (DataLoader L) :=
  match tr with
  | [] => []
  | (EvFit _ d _ _ _ _ _ _ _ _ _, _) :: rest => d :: fit_loaders rest
  | _ :: rest => fit_loaders rest
  end.

Fixpoint predict_loaders {L : library} (tr : list (event L * outcome))
  : list (DataLoader L) :=
  match tr with
  | [] => []
  | (EvPredict _ d _ _, _) :: rest => d :: predict_loaders rest
  | _ :: rest => predict_loaders rest
  end.

Fixpoint report_inputs {L : library} (tr : list (event L * outcome))
  : list (list labels * list labels) :=
  match tr with
  | [] => []
  | (EvClassificationReport t p _, _) :: rest => (t, p) :: report_inputs rest
  | _ :: rest => report_inputs rest
  end.

Fixpoint seeds {L : library} (tr : list (event L * outcome)) : list Z :=
  match tr with
  | [] => []
  | (EvManualSeed s, _) :: rest => s :: seeds rest
  | (EvRandomSeed s, _) :: rest => s :: seeds rest
  | (EvTrainTestSplit _ _ _ s, _) :: rest => s :: seeds rest
  | (EvFit _ _ _ _ _ _ _ _ _ _ s, _) :: rest => s :: seeds rest
  | _ :: rest => seeds rest
  end.

(** The calls of a log all returned. *)
Definition clean {L : library} (tr : list (event L * outcome)) : Prop :=
  Forall (fun x => snd x = Returned) tr.

(** Field [i] of the second-to-last line of a report, and the float it
    parses to. *)
Definition report_field (report : string) (i : Z) : result string :=
  match Py.getitem (Py.split_sep LF report) (-2) with
  | Ok line => Py.getitem (Py.split line) i
  | Raise e => Raise e
  end.

Definition report_metric (L : library) (report : string) (i : Z)
  : option float :=
  match report_field report i with
  | Ok s => float_of_str L s
  | Raise _ => None
  end.

(** The shape cell 12 expects of a report: a second-to-last line of at
    least five fields whose fields 2, 3 and 4 parse as floats. *)
Definition well_shaped (L : library) (report : string) : Prop :=
  (exists line,
      Py.getitem (Py.split_sep LF report) (-2) = Ok line /\
      (5 <= List.length (Py.split line))%nat) /\
  report_metric L report 2 <> None /\
  report_metric L report 3 <> None /\
  report_metric L report 4 <> None.

(** The cells from configuration through preprocessing. *)
Definition through_preprocessing (L : library) (QUICK_RUN : bool)
  : M L (config * data * prepared L) :=
  c <- cell_3 L QUICK_RUN ;;
  d <- cell_4 L c ;;
  cell_5 L d ;;
  p <- cell_6 L c d ;;
  ret (c, d, p).

(** The calls of each cell when every one of them returns, in order. *)
Definition cell_3_calls {L : library} : list (event L) :=
  [EvTemporaryDirectory; EvTemporaryDirectory; EvManualSeed 100].

(** The positions [random.sample] picks for [k] of [n] elements right after
    [random.seed(seed)]. *)
Definition sampled_positions (L : library) (seed : Z) (n : nat) (k : Z)
  : list nat :=
  map (fst (random_sample_positions L (random_seed L seed) n (Z.to_nat k)))
      (seq 0 (Z.to_nat k)).

Definition cell_4_calls {L : library} (c : config) (file_name : string)
    (parsed : list sentence * list labels) (k : Z) (d : data)
  : list (event L) :=
  [EvMaybeDownload (DATA_URL c) file_name (DATA_PATH c);
   EvReadConllFile (Py.path_join (DATA_PATH c) file_name) " ";
   EvRandomSeed (RANDOM_SEED c);
   EvRandomSample (combine (fst parsed) (snd parsed)) k;
   EvTrainTestSplit (sentence_list d) (labels_list d) (TEST_DATA_FRACTION c)
     (RANDOM_SEED c)].

Definition cell_5_calls {L : library} (tokens : sentence) (tags : labels)
    (df shown : DataFrame L) : list (event L) :=
  [EvDataFrame ("token", tokens) ("label", tags); EvHead df 11;
   EvDisplay shown].

Definition cell_6_calls {L : library} (c : config) (d : data)
    (p : prepared L) : list (event L) :=
  [EvProcessor (MODEL_NAME c) (DO_LOWER_CASE c) (CACHE_DIR c);
   EvCreateLabelMap (labels_list d) (TRAILING_PIECE_TAG c);
   EvPreprocess (processor p) (train_sentence_list d) (MAX_SEQ_LENGTH c)
     (Some (train_labels_list d)) (label_map p) (TRAILING_PIECE_TAG c);
   EvDataLoader (train_dataset p) (BATCH_SIZE c) (NUM_GPUS c) true false;
   EvPreprocess (processor p) (test_sentence_list d) (MAX_SEQ_LENGTH c)
     (Some (test_labels_list d)) (label_map p) (TRAILING_PIECE_TAG c);
   EvDataLoader (test_dataset p) (BATCH_SIZE c) (NUM_GPUS c) false false].

Definition cell_7_calls {L : library} (c : config) (p : prepared L)
    (m0 : Model L) (hours : float) : list (event L) :=
  [EvTokenClassifier (MODEL_NAME c) (Z.of_nat (List.length (label_map p)))
     (CACHE_DIR c);
   EvFit m0 (train_dataloader p) (NUM_TRAIN_EPOCHS c) (NUM_GPUS c) (-1)
     0.0%float 5e-5%float 1e-8%float 0 false (RANDOM_SEED c);
   EvPrint [PFormat "Training time : {:.3f} hrs" hours]].

Definition cell_8_calls {L : library} (p : prepared L) (m : Model L)
    (hours : float) : list (event L) :=
  [EvPredict m (test_dataloader p) None true;
   EvPrint [PFormat "Prediction time : {:.3f} hrs" hours]].

Definition cell_10_calls {L : library} (p : prepared L) (m : Model L)
    (preds : Predictions L) (true_labels predicted_labels : list labels)
    (report : string) : list (event L) :=
  [EvPredictedLabels m preds (label_map p) (test_dataset p);
   EvClassificationReport true_labels predicted_labels 2;
   EvPrint [PStr report]].

(** The token lists of the two example sentences of cell 11. *)
Definition sample_tokens : list sentence := map Py.split sample_text.

Definition cell_11_calls {L : library} (c : config) (p : prepared L)
    (m : Model L) (ds : Dataset L) (loader : DataLoader L)
    (preds : Predictions L) (tags1 tags2 : labels) (df1 df2 : DataFrame L)
  : list (event L) :=
  [EvPreprocess (processor p) sample_tokens (MAX_SEQ_LENGTH c) None
     (label_map p) (TRAILING_PIECE_TAG c);
   EvDataLoader ds (BATCH_SIZE c) None false false;
   EvPredict m loader None true;
   EvPredictedLabels m preds (label_map p) ds;
   EvPrint [PStr (String LF EmptyString);
            PStr "Is it true that Jane works at Microsoft?"];
   EvDataFrame
     ("tokens",
      ["Is"; "it"; "true"; "that"; "Jane"; "works"; "at"; "Microsoft?"])
     ("labels", tags1);
   EvPrint [PFrame df1];
   EvPrint [PStr (String LF EmptyString); PStr "Joe now lives in Copenhagen."];
   EvDataFrame ("tokens", ["Joe"; "now"; "lives"; "in"; "Copenhagen."])
     ("labels", tags2);
   EvPrint [PFrame df2]].

Definition cell_12_calls {L : library} (precision recall f1 : float)
  : list (event L) :=
  [EvGlue "precision" precision; EvGlue "recall" recall; EvGlue "f1" f1].

(** What a completed run computed on the way and did not keep in a
    variable that [globals] holds. *)
Module Run.

Record internals (L : library) : Type := Internals {
  parsed : list sentence * list labels;
  sample_k : Z;
  sampled : list (sentence * labels);
  shown_tokens : sentence;
  shown_tags : labels;
  frame : DataFrame L;
  shown : DataFrame L;
  new_model : Model L;
  train_hours : float;
  predict_hours : float;
  sample_dataset : Dataset L;
  sample_dataloader : DataLoader L;
  sample_preds : Predictions L;
  sample_predicted : list labels;
  tags1 : labels;
  tags2 : labels;
  frame1 : DataFrame L;
  frame2 : DataFrame L;
  precision : float;
  recall : float;
  f1 : float
}.

Arguments parsed {L} i.
Arguments sample_k {L} i.
Arguments sampled {L} i.
Arguments shown_tokens {L} i.
Arguments shown_tags {L} i.
Arguments frame {L} i.
Arguments shown {L} i.
Arguments new_model {L} i.
Arguments train_hours {L} i.
Arguments predict_hours {L} i.
Arguments sample_dataset {L} i.
Arguments sample_dataloader {L} i.
Arguments sample_preds {L} i.
Arguments sample_predicted {L} i.
Arguments tags1 {L} i.
Arguments tags2 {L} i.
Arguments frame1 {L} i.
Arguments frame2 {L} i.
Arguments precision {L} i.
Arguments recall {L} i.
Arguments f1 {L} i.

(** The calls of a completed run, cell by cell. *)
Definition calls {L : library} (g : globals L) (x : internals L)
  : list (event L) :=
  cell_3_calls
  ++ cell_4_calls (cfg g) "wikigold.conll.txt" (parsed x) (sample_k x) (dat g)
  ++ cell_5_calls (shown_tokens x) (shown_tags x) (frame x) (shown x)
  ++ cell_6_calls (cfg g) (dat g) (prep g)
  ++ cell_7_calls (cfg g) (prep g) (new_model x) (train_hours x)
  ++ cell_8_calls (prep g) (model g) (predict_hours x)
  ++ [EvTrueLabels (model g) (label_map (prep g)) (test_dataset (prep g))]
  ++ cell_10_calls (prep g) (model g) (preds g) (true_labels g)
       (predicted_labels g) (report g)
  ++ cell_11_calls (cfg g) (prep g) (model g) (sample_dataset x)
       (sample_dataloader x) (sample_preds x) (tags1 x) (tags2 x)
       (frame1 x) (frame2 x)
  ++ cell_12_calls (precision x) (recall x) (f1 x).

(** The library results that tie the values of a completed run
    together. *)
Record explains {L : library} (QUICK_RUN : bool) (g : globals L)
    (x : internals L) : Prop := Explains {
  configured :
    cfg g = configuration QUICK_RUN (DATA_PATH (cfg g)) (CACHE_DIR (cfg g));
  was_parsed : read_conll_file L (data_file (cfg g)) " " = Ok (parsed x);
  was_sized : sample_size (cfg g) (fst (parsed x)) = Ok (sample_k x);
  was_sampled :
    Py.pick (combine (fst (parsed x)) (snd (parsed x)))
      (sampled_positions L (RANDOM_SEED (cfg g))
         (List.length (combine (fst (parsed x)) (snd (parsed x))))
         (sample_k x))
    = Ok (sampled x);
  kept_sentences : sentence_list (dat g) = map fst (sampled x);
  kept_labels : labels_list (dat g) = map snd (sampled x);
  was_split :
    train_test_split L (sentence_list (dat g)) (labels_list (dat g))
      (TEST_DATA_FRACTION (cfg g)) (RANDOM_SEED (cfg g))
    = Ok (train_sentence_list (dat g), test_sentence_list (dat g),
          train_labels_list (dat g), test_labels_list (dat g));
  train_wrapped :
    preprocess L (processor (prep g)) (train_sentence_list (dat g))
      (MAX_SEQ_LENGTH (cfg g)) (Some (train_labels_list (dat g)))
      (label_map (prep g)) (TRAILING_PIECE_TAG (cfg g))
    = Ok (train_dataset (prep g));
  train_loaded :
    dataloader_from_dataset L (train_dataset (prep g)) (BATCH_SIZE (cfg g))
      (NUM_GPUS (cfg g)) true false
    = Ok (train_dataloader (prep g));
  test_wrapped :
    preprocess L (processor (prep g)) (test_sentence_list (dat g))
      (MAX_SEQ_LENGTH (cfg g)) (Some (test_labels_list (dat g)))
      (label_map (prep g)) (TRAILING_PIECE_TAG (cfg g))
    = Ok (test_dataset (prep g));
  test_loaded :
    dataloader_from_dataset L (test_dataset (prep g)) (BATCH_SIZE (cfg g))
      (NUM_GPUS (cfg g)) false false
    = Ok (test_dataloader (prep g));
  was_instantiated :
    TokenClassifier L (MODEL_NAME (cfg g))
      (Z.of_nat (List.length (label_map (prep g)))) (CACHE_DIR (cfg g))
    = Ok (new_model x);
  was_fitted :
    fit L (new_model x) (train_dataloader (prep g))
      (NUM_TRAIN_EPOCHS (cfg g)) (NUM_GPUS (cfg g)) (-1)
      0.0%float 5e-5%float 1e-8%float 0 false (RANDOM_SEED (cfg g))
    = Ok (model g);
  was_predicted :
    predict L (model g) (test_dataloader (prep g)) None true = Ok (preds g);
  truth_read :
    get_true_test_labels L (model g) (label_map (prep g))
      (test_dataset (prep g))
    = Ok (true_labels g);
  prediction_read :
    get_predicted_token_labels L (model g) (preds g) (label_map (prep g))
      (test_dataset (prep g))
    = Ok (predicted_labels g);
  was_reported :
    classification_report L (true_labels g) (predicted_labels g) 2
    = Ok (report g);
  sample_wrapped :
    preprocess L (processor (prep g)) sample_tokens (MAX_SEQ_LENGTH (cfg g))
      None (label_map (prep g)) (TRAILING_PIECE_TAG (cfg g))
    = Ok (sample_dataset x);
  sample_loaded :
    dataloader_from_dataset L (sample_dataset x) (BATCH_SIZE (cfg g)) None
      false false
    = Ok (sample_dataloader x);
  precision_read : report_metric L (report g) 2 = Some (precision x);
  recall_read : report_metric L (report g) 3 = Some (recall x);
  f1_read : report_metric L (report g) 4 = Some (f1 x)
}.

End Run.

(** ** Logs of runs that may fail *)

(** How a computation ended: [None] when it returned. *)
Definition status {A : Type} (r : result A) : option exn :=
  match r with
  | Ok _ => None
  | Raise e => Some e
  end.

(** [emits P m]: whatever the world, [m] only appends to the log, and what
    it appends satisfies [P] together with the way [m] ended. *)
Definition emits {L : library} {A : Type}
    (P : list (event L * outcome) -> option exn -> Prop) (m : M L A) : Prop :=
  forall w r w',
    m w = (r, w') ->
    exists new, trace w' = trace w ++ new /\ P new (status r).

(** A log and an ending that fit together: every call returned, except
    that the last one may have raised the exception the computation ended
    with. *)
Definition propagated {L : library} (new : list (event L * outcome))
    (s : option exn) : Prop :=
  match s with
  | None => clean new
  | Some e =>
      clean new \/
      exists pre ev, new = pre ++ [(ev, Raised e)] /\ clean pre
  end.

(** A log without a call of [fit]. *)
Definition no_fit {L : library} (new : list (event L * outcome))
    (s : option exn) : Prop :=
  fit_epochs new = [].

(** The cells after the model is fitted. *)
Definition after_training (L : library) (c : config) (d : data)
    (p : prepared L) (model : Model L) : M L (globals L) :=
  preds <- cell_8 L p model ;;
  true_labels <- cell_9 L p model ;;
  '(predicted_labels, report) <- cell_10 L p model preds true_labels ;;
  cell_11 L c p model ;;
  cell_12 L report ;;
  ret (Globals c d p model preds true_labels predicted_labels report).

(** The configuration with the two values that [QUICK_RUN] selects
    written out. *)
Definition selected (QUICK_RUN : bool) (DATA_PATH CACHE_DIR : string)
  : config :=
  Config
    (String.append
       "https://raw.githubusercontent.com/juand-r/entity-recognition-datasets"
       "/master/data/wikigold/CONLL-format/data/wikigold.conll.txt")
    0.3%float (if QUICK_RUN then Py.PyFloat 0.1 else Py.PyInt 1)
    DATA_PATH CACHE_DIR 100 (if QUICK_RUN then 1 else 5) "bert-base-cased"
    false 200 "X" None 16.

(** The library functions the cells through preprocessing call when every
    call returns, in order. *)
Definition preprocessing_callees : list string :=
  ["TemporaryDirectory"; "TemporaryDirectory"; "torch.manual_seed";
   "maybe_download"; "read_conll_file"; "random.seed"; "random.sample";
   "train_test_split"; "pd.DataFrame"; "head"; "display";
   "TokenClassificationProcessor"; "create_label_map"; "preprocess";
   "dataloader_from_dataset"; "preprocess"; "dataloader_from_dataset"].

(** What a completed run shows of training and scoring: the split, what
    [fit] was given, and what [predict] and the classification report
    were given. *)
Record held_out {L : library} (g : globals L) (w' : world L) : Prop := HeldOut {
  test_fraction : TEST_DATA_FRACTION (cfg g) = 0.3%float;
  split_positions :
    exists train test,
      split_indices L (List.length (sentence_list (dat g))) 0.3%float 100
      = Ok (train, test) /\
      (forall i, In i train -> ~ In i test) /\
      Py.pick (sentence_list (dat g)) train = Ok (train_sentence_list (dat g)) /\
      Py.pick (labels_list (dat g)) train = Ok (train_labels_list (dat g)) /\
      Py.pick (sentence_list (dat g)) test = Ok (test_sentence_list (dat g)) /\
      Py.pick (labels_list (dat g)) test = Ok (test_labels_list (dat g));
  fit_on_train :
    fit_loaders (trace w') = [train_dataloader (prep g)] /\
    dataloader_from_dataset L (train_dataset (prep g)) 16 None true false
    = Ok (train_dataloader (prep g)) /\
    preprocess L (processor (prep g)) (train_sentence_list (dat g)) 200
      (Some (train_labels_list (dat g))) (label_map (prep g)) "X"
    = Ok (train_dataset (prep g));
  test_loader_from_test :
    dataloader_from_dataset L (test_dataset (prep g)) 16 None false false
    = Ok (test_dataloader (prep g)) /\
    preprocess L (processor (prep g)) (test_sentence_list (dat g)) 200
      (Some (test_labels_list (dat g))) (label_map (prep g)) "X"
    = Ok (test_dataset (prep g));
  predict_on_test_then_examples :
    exists examples loader,
      predict_loaders (trace w') = [test_dataloader (prep g); loader] /\
      dataloader_from_dataset L examples 16 None false false = Ok loader /\
      preprocess L (processor (prep g)) sample_tokens 200 None
        (label_map (prep g)) "X"
      = Ok examples;
  report_on_test :
    report_inputs (trace w') = [(true_labels g, predicted_labels g)] /\
    get_true_test_labels L (model g) (label_map (prep g))
      (test_dataset (prep g))
    = Ok (true_labels g) /\
    get_predicted_token_labels L (model g) (preds g) (label_map (prep g))
      (test_dataset (prep g))
    = Ok (predicted_labels g) /\
    predict L (model g) (test_dataloader (prep g)) None true = Ok (preds g)
}.

(** The calls of [fit] in a log, with all their arguments, and the models
    given to [predict]. *)
Fixpoint fit_calls {L : library} (tr : list (event L * outcome))
  : list (event L) :=
  match tr with
  | [] => []
  | (EvFit m d n g r wd lr eps ws v s, _) :: rest =>
      EvFit m d n g r wd lr eps ws v s :: fit_calls rest
  | _ :: rest => fit_calls rest
  end.

Fixpoint predict_models {L : library} (tr : list (event L * outcome))
  : list (Model L) :=
  match tr with
  | [] => []
  | (EvPredict m _ _ _, _) :: rest => m :: predict_models rest
  | _ :: rest => predict_models rest
  end.

(** Whether a line of a report is its macro-average row: the row whose
    first two fields are [macro] and [avg]. *)
Definition macro_average_row (line : string) : bool :=
  match Py.split line with
  | a :: b :: _ => String.eqb a "macro" && String.eqb b "avg"
  | _ => false
  end.

(** ** The calls of any run *)

(** The library functions a completed run calls, in order. *)
Definition notebook_callees : list string :=
  preprocessing_callees ++
  ["TokenClassifier"; "fit"; "print";
   "predict"; "print";
   "get_true_test_labels";
   "get_predicted_token_labels"; "classification_report"; "print";
   "preprocess"; "dataloader_from_dataset"; "predict";
   "get_predicted_token_labels";
   "print"; "pd.DataFrame"; "print"; "print"; "pd.DataFrame"; "print";
   "sb.glue"; "sb.glue"; "sb.glue"].

(** The scraps that the glue calls of a log recorded. *)
Fixpoint glued {L : library} (tr : list (event L * outcome))
  : list (string * float) :=
  match tr with
  | [] => []
  | (EvGlue name x, _) :: rest => (name, x) :: glued rest
  | _ :: rest => glued rest
  end.

(** [follows expected rest m]: [m] only appends to the log and to the
    scraps; the scraps it appends are those of its glue calls; when it
    returns it has called exactly the functions that [expected] lists
    before [rest], and when it raises it has called an initial segment of
    [expected]. *)
Definition follows {L : library} {A : Type} (expected rest : list string)
    (m : M L A) : Prop :=
  forall w r w',
    m w = (r, w') ->
    exists new,
      trace w' = trace w ++ new /\
      scraps w' = scraps w ++ glued new /\
      match r with
      | Ok _ => expected = callees new ++ rest
      | Raise _ => exists more, expected = callees new ++ more
      end.

(** ** Strings *)

(** Whether a character occurs in a string. *)
Fixpoint contains (c : ascii) (s : string) : bool :=
  match s with
  | EmptyString => false
  | String d r => Ascii.eqb d c || contains c r
  end.

(** Whether a string has a whitespace character. *)
Fixpoint has_space (s : string) : bool :=
  match s with
  | EmptyString => false
  | String d r => Py.isspace d || has_space r
  end.

(** The calls of a completed run before the first glue call. *)
Definition callees_before_glue : list string :=
  firstn 36 notebook_callees.

(** * Properties *)

(** ** Reading a run that returned *)

Section Inversion.

Context {L : library}.

Lemma bind_ok {A B : Type} (m : M L A) (f : A -> M L B) w b w' :
  bind m f w = (Ok b, w') ->
  exists a w1, m w = (Ok a, w1) /\ f a w1 = (Ok b, w').
Proof.
  unfold bind. destruct (m w) as [[a|e] w1]; intros H.
  - exists a, w1. split; [reflexivity | exact H].
  - discriminate H.
Qed.

Lemma ret_ok {A : Type} (a b : A) (w w' : world L) :
  ret a w = (Ok b, w') -> a = b /\ w' = w.
Proof. unfold ret. intros H. inversion H. split; reflexivity. Qed.

Lemma lift_ok {A : Type} (r : result A) (a : A) (w w' : world L) :
  lift r w = (Ok a, w') -> r = Ok a /\ w' = w.
Proof. unfold lift. intros H. inversion H. split; reflexivity. Qed.

Lemma call_ok {A : Type} (ev : event L) (r : result A) (a : A) (w w' : world L) :
  call ev r w = (Ok a, w') -> r = Ok a /\ w' = returned [ev] w.
Proof. unfold call. intros H. inversion H. subst. split; reflexivity. Qed.

Lemma print_ok (args : list (printed L)) (u : unit) (w w' : world L) :
  print L args w = (Ok u, w') -> w' = returned [EvPrint args] w.
Proof. unfold print. intros H. inversion H. reflexivity. Qed.

Lemma display_ok (df : DataFrame L) (u : unit) (w w' : world L) :
  display L df w = (Ok u, w') -> w' = returned [EvDisplay df] w.
Proof. unfold display. intros H. inversion H. reflexivity. Qed.

Lemma glue_ok (name : string) (x : float) (u : unit) (w w' : world L) :
  glue L name x w = (Ok u, w') ->
  w' = World (trace w ++ [(EvGlue name x, Returned)]) (random_state w)
         (host w) (scraps w ++ [(name, x)]).
Proof. unfold glue. intros H. inversion H. reflexivity. Qed.

Lemma float_ok (s : string) (x : float) (w w' : world L) :
  float_ L s w = (Ok x, w') -> float_of_str L s = Some x /\ w' = w.
Proof.
  unfold float_, lift. destruct (float_of_str L s); intros H; inversion H.
  split; reflexivity.
Qed.

Lemma random_seed_ok (a : Z) (u : unit) (w w' : world L) :
  random_seed_ L a w = (Ok u, w') ->
  w' = World (trace w ++ [(EvRandomSeed a, Returned)]) (random_seed L a)
         (host w) (scraps w).
Proof. unfold random_seed_. intros H. inversion H. reflexivity. Qed.

Lemma TemporaryDirectory_ok (s : string) (w w' : world L) :
  TemporaryDirectory L w = (Ok s, w') ->
  fst (TemporaryDirectory_name L (host w)) = Ok s /\
  w' = World (trace w ++ [(EvTemporaryDirectory, Returned)]) (random_state w)
         (snd (TemporaryDirectory_name L (host w))) (scraps w).
Proof.
  unfold TemporaryDirectory.
  destruct (TemporaryDirectory_name L (host w)) as [r h'].
  intros H. inversion H. subst. split; reflexivity.
Qed.

Lemma random_sample_ok population k (s : list (sentence * labels))
    (w w' : world L) :
  random_sample L population k w = (Ok s, w') ->
  0 <= k <= Z.of_nat (List.length population) /\
  Py.pick population
    (map (fst (random_sample_positions L (random_state w)
                 (List.length population) (Z.to_nat k)))
         (seq 0 (Z.to_nat k))) = Ok s /\
  w' = World (trace w ++ [(EvRandomSample population k, Returned)])
         (snd (random_sample_positions L (random_state w)
                 (List.length population) (Z.to_nat k)))
         (host w) (scraps w).
Proof.
  unfold random_sample.
  destruct ((k <? 0) || (Z.of_nat (List.length population) <? k)) eqn:E.
  - discriminate.
  - destruct (random_sample_positions L _ _ _) as [pos rs']. cbn [fst snd].
    intros H. inversion H as [[H1 H2]]. rewrite H1. cbn [outcome_of].
    apply orb_false_iff in E. destruct E as [E1 E2].
    apply Z.ltb_ge in E1, E2. repeat split; auto.
Qed.

Lemma with_Timer_ok {A : Type} (body : M L A) (a : A) (t : float)
    (w w' : world L) :
  with_Timer body w = (Ok (a, t), w') ->
  exists w1,
    body (World (trace w) (random_state w)
            (snd (default_timer L (host w))) (scraps w)) = (Ok a, w1) /\
    w' = World (trace w1) (random_state w1)
           (snd (default_timer L (host w1))) (scraps w1) /\
    t = (fst (default_timer L (host w1)) - fst (default_timer L (host w)))%float.
Proof.
  unfold with_Timer, tick.
  destruct (default_timer L (host w)) as [t0 h0]. cbn [fst snd].
  destruct (body _) as [[x|e] w1]; [|discriminate].
  destruct (default_timer L (host w1)) as [t1 h1] eqn:E1. cbn [fst snd].
  intros H. inversion H. subst. exists w1. rewrite E1. repeat split; reflexivity.
Qed.

End Inversion.

(** Projections of the worlds that the lemmas above produce. *)
Ltac norm_world :=
  cbn [returned trace random_state host scraps map app fresh_kernel] in *.

(** One step of reading [H : m w = (Ok a, w')] along the structure of
    [m]. *)
Ltac inv_step H :=
  lazymatch type of H with
  | bind _ _ _ = (Ok _, _) =>
      let a := fresh "v" in
      let w1 := fresh "w" in
      let H1 := fresh "H" in
      let H2 := fresh "H" in
      apply bind_ok in H; destruct H as (a & w1 & H1 & H2);
      inv_step H1; cbv beta in H2; inv_step H2
  | ret _ _ = (Ok _, _) =>
      let E := fresh "E" in
      apply ret_ok in H; destruct H as [E ?];
      try (injection E as E; repeat
             match goal with
             | G : (_, _) = (_, _) |- _ => injection G as G
             end);
      subst; norm_world
  | lift _ _ = (Ok _, _) =>
      apply lift_ok in H; destruct H as [H ?]; subst; norm_world
  | call _ _ _ = (Ok _, _) =>
      apply call_ok in H; destruct H as [H ?]; subst; norm_world
  | print _ _ _ = (Ok _, _) => apply print_ok in H; subst; norm_world
  | display _ _ _ = (Ok _, _) => apply display_ok in H; subst; norm_world
  | glue _ _ _ _ = (Ok _, _) => apply glue_ok in H; subst; norm_world
  | float_ _ _ _ = (Ok _, _) =>
      apply float_ok in H; destruct H as [H ?]; subst; norm_world
  | TemporaryDirectory _ _ = (Ok _, _) =>
      apply TemporaryDirectory_ok in H; destruct H as [H ?]; subst; norm_world
  | random_seed_ _ _ _ = (Ok _, _) =>
      apply random_seed_ok in H; subst; norm_world
  | random_sample _ _ _ _ = (Ok _, _) =>
      let B := fresh "B" in
      apply random_sample_ok in H; destruct H as (B & H & ?); subst; norm_world
  | with_Timer _ _ = (Ok (_, _), _) =>
      let w1 := fresh "w" in
      let T := fresh "T" in
      apply with_Timer_ok in H; destruct H as (w1 & H & ? & T);
      inv_step H; subst; norm_world
  | with_Timer _ _ = (Ok ?p, _) => destruct p; inv_step H
  | (match ?x with (_, _) => _ end) _ = _ => destruct x; inv_step H
  | (let (_, _) := ?x in _) _ = _ => destruct x; inv_step H
  | _ => idtac
  end.

(** Equality of two worlds built by the lemmas above. *)
Ltac world_eq :=
  unfold returned; norm_world; rewrite <- ?app_assoc; reflexivity.

(** ** The cells, when they return *)

Section CellsReturn.

Context {L : library}.

Lemma cell_3_ok q (w : world L) c w' :
  cell_3 L q w = (Ok c, w') ->
  c = configuration q (DATA_PATH c) (CACHE_DIR c) /\
  w' = World (trace w ++ map (fun ev => (ev, Returned)) cell_3_calls)
         (random_state w) (host w') (scraps w).
Proof.
  intros H. unfold cell_3 in H. cbv zeta in H. inv_step H.
  split.
  - destruct q; reflexivity.
  - world_eq.
Qed.

Lemma sub_sample_ok c s l (w : world L) s' l' w' :
  sub_sample L c s l w = (Ok (s', l'), w') ->
  exists k sampled,
    sample_size c s = Ok k /\
    0 <= k <= Z.of_nat (List.length (combine s l)) /\
    Py.pick (combine s l)
      (sampled_positions L (RANDOM_SEED c) (List.length (combine s l)) k)
    = Ok sampled /\
    sampled <> [] /\
    s' = map fst sampled /\
    l' = map snd sampled /\
    w' = World
           (trace w ++
            [(EvRandomSeed (RANDOM_SEED c), Returned);
             (EvRandomSample (combine s l) k, Returned)])
           (snd (random_sample_positions L (random_seed L (RANDOM_SEED c))
                   (List.length (combine s l)) (Z.to_nat k)))
           (host w) (scraps w).
Proof.
  intros H. unfold sub_sample in H. inv_step H.
  match goal with
  | U : Py.unzip2 ?x = Ok _ |- _ =>
      exists v0, x; destruct x as [|p x']; [discriminate U|];
      cbn [Py.unzip2] in U; inversion U; subst
  end.
  repeat split; try assumption; try lia; try discriminate.
  world_eq.
Qed.

Lemma cell_4_ok c (w : world L) d w' :
  cell_4 L c w = (Ok d, w') ->
  exists file_name parsed k sampled,
    Py.getitem (Py.split_sep "/" (DATA_URL c)) (-1) = Ok file_name /\
    read_conll_file L (Py.path_join (DATA_PATH c) file_name) " " = Ok parsed /\
    sample_size c (fst parsed) = Ok k /\
    Py.pick (combine (fst parsed) (snd parsed))
      (sampled_positions L (RANDOM_SEED c)
         (List.length (combine (fst parsed) (snd parsed))) k)
    = Ok sampled /\
    sentence_list d = map fst sampled /\
    labels_list d = map snd sampled /\
    train_test_split L (sentence_list d) (labels_list d)
      (TEST_DATA_FRACTION c) (RANDOM_SEED c)
    = Ok (train_sentence_list d, test_sentence_list d,
          train_labels_list d, test_labels_list d) /\
    w' = World
           (trace w ++
            map (fun ev => (ev, Returned)) (cell_4_calls c file_name parsed k d))
           (random_state w') (host w) (scraps w).
Proof.
  intros H. unfold cell_4 in H. cbv zeta in H.
  apply bind_ok in H. destruct H as (file_name & w1 & H1 & H).
  inv_step H1.
  apply bind_ok in H. destruct H as (x & w2 & H2 & H). inv_step H2.
  apply bind_ok in H. destruct H as ([s l] & w3 & H3 & H). inv_step H3.
  apply bind_ok in H. destruct H as ([s' l'] & w4 & H4 & H).
  apply sub_sample_ok in H4.
  destruct H4 as (k & sampled & K & B & P & N & -> & -> & ->).
  inv_step H.
  exists file_name, (s, l), k, sampled. cbn [fst snd sentence_list labels_list
    train_sentence_list test_sentence_list train_labels_list test_labels_list].
  repeat split; try assumption.
  world_eq.
Qed.

Lemma cell_5_ok d (w : world L) u w' :
  cell_5 L d w = (Ok u, w') ->
  exists tokens tags df shown,
    Py.getitem (train_sentence_list d) 0 = Ok tokens /\
    Py.getitem (train_labels_list d) 0 = Ok tags /\
    pd_DataFrame L ("token", tokens) ("label", tags) = Ok df /\
    DataFrame_head L df 11 = Ok shown /\
    w' = returned (cell_5_calls tokens tags df shown) w.
Proof.
  intros H. unfold cell_5 in H. inv_step H.
  do 4 eexists. repeat split; try eassumption. world_eq.
Qed.

Lemma cell_6_ok c d (w : world L) p w' :
  cell_6 L c d w = (Ok p, w') ->
  TokenClassificationProcessor L (MODEL_NAME c) (DO_LOWER_CASE c) (CACHE_DIR c)
  = Ok (processor p) /\
  create_label_map L (labels_list d) (TRAILING_PIECE_TAG c) = Ok (label_map p) /\
  preprocess L (processor p) (train_sentence_list d) (MAX_SEQ_LENGTH c)
    (Some (train_labels_list d)) (label_map p) (TRAILING_PIECE_TAG c)
  = Ok (train_dataset p) /\
  dataloader_from_dataset L (train_dataset p) (BATCH_SIZE c) (NUM_GPUS c)
    true false
  = Ok (train_dataloader p) /\
  preprocess L (processor p) (test_sentence_list d) (MAX_SEQ_LENGTH c)
    (Some (test_labels_list d)) (label_map p) (TRAILING_PIECE_TAG c)
  = Ok (test_dataset p) /\
  dataloader_from_dataset L (test_dataset p) (BATCH_SIZE c) (NUM_GPUS c)
    false false
  = Ok (test_dataloader p) /\
  w' = returned (cell_6_calls c d p) w.
Proof.
  intros H. unfold cell_6 in H. inv_step H.
  cbn [processor label_map train_dataset train_dataloader test_dataset
       test_dataloader].
  repeat split; try assumption. world_eq.
Qed.

Lemma cell_7_ok c p (w : world L) m w' :
  cell_7 L c p w = (Ok m, w') ->
  exists m0 hours,
    TokenClassifier L (MODEL_NAME c) (Z.of_nat (List.length (label_map p)))
      (CACHE_DIR c)
    = Ok m0 /\
    fit L m0 (train_dataloader p) (NUM_TRAIN_EPOCHS c) (NUM_GPUS c) (-1)
      0.0%float 5e-5%float 1e-8%float 0 false (RANDOM_SEED c)
    = Ok m /\
    w' = World
           (trace w ++ map (fun ev => (ev, Returned)) (cell_7_calls c p m0 hours))
           (random_state w)
           (snd (default_timer L (snd (default_timer L (host w)))))
           (scraps w).
Proof.
  intros H. unfold cell_7 in H. cbv zeta in H. inv_step H.
  do 2 eexists. repeat split; try eassumption. world_eq.
Qed.

Lemma cell_8_ok p m (w : world L) preds w' :
  cell_8 L p m w = (Ok preds, w') ->
  exists hours,
    predict L m (test_dataloader p) None true = Ok preds /\
    w' = World
           (trace w ++ map (fun ev => (ev, Returned)) (cell_8_calls p m hours))
           (random_state w)
           (snd (default_timer L (snd (default_timer L (host w)))))
           (scraps w).
Proof.
  intros H. unfold cell_8 in H. inv_step H.
  eexists. repeat split; try eassumption. world_eq.
Qed.

Lemma cell_9_ok p m (w : world L) t w' :
  cell_9 L p m w = (Ok t, w') ->
  get_true_test_labels L m (label_map p) (test_dataset p) = Ok t /\
  w' = returned [EvTrueLabels m (label_map p) (test_dataset p)] w.
Proof.
  intros H. unfold cell_9 in H. inv_step H. split; [assumption | world_eq].
Qed.

Lemma cell_10_ok p m preds t (w : world L) predicted rep w' :
  cell_10 L p m preds t w = (Ok (predicted, rep), w') ->
  get_predicted_token_labels L m preds (label_map p) (test_dataset p)
  = Ok predicted /\
  classification_report L t predicted 2 = Ok rep /\
  w' = returned (cell_10_calls p m preds t predicted rep) w.
Proof.
  intros H. unfold cell_10 in H. inv_step H.
  repeat split; try assumption. world_eq.
Qed.

Lemma cell_11_ok c p m (w : world L) u w' :
  cell_11 L c p m w = (Ok u, w') ->
  exists ds loader preds predicted tags1 tags2 df1 df2,
    preprocess L (processor p) sample_tokens (MAX_SEQ_LENGTH c) None
      (label_map p) (TRAILING_PIECE_TAG c)
    = Ok ds /\
    dataloader_from_dataset L ds (BATCH_SIZE c) None false false = Ok loader /\
    predict L m loader None true = Ok preds /\
    get_predicted_token_labels L m preds (label_map p) ds = Ok predicted /\
    Py.getitem predicted 0 = Ok tags1 /\
    Py.getitem predicted 1 = Ok tags2 /\
    w' = returned (cell_11_calls c p m ds loader preds tags1 tags2 df1 df2) w.
Proof.
  intros H. unfold cell_11 in H. cbv zeta in H.
  change (range (List.length sample_text)) with [0; 1] in H.
  cbn [for_each] in H. inv_step H.
  repeat match goal with
  | G : Py.getitem sample_text _ = Ok _ |- _ =>
      vm_compute in G; inversion G; subst; clear G
  | G : Py.getitem (map Py.split sample_text) _ = Ok _ |- _ =>
      vm_compute in G; inversion G; subst; clear G
  end.
  do 8 eexists. repeat split; try eassumption. world_eq.
Qed.

Lemma cell_12_ok rep (w : world L) u w' :
  cell_12 L rep w = (Ok u, w') ->
  exists precision recall f1,
    report_metric L rep 2 = Some precision /\
    report_metric L rep 3 = Some recall /\
    report_metric L rep 4 = Some f1 /\
    w' = World
           (trace w ++
            map (fun ev => (ev, Returned)) (cell_12_calls precision recall f1))
           (random_state w) (host w)
           (scraps w ++
            [("precision", precision); ("recall", recall); ("f1", f1)]).
Proof.
  intros H. unfold cell_12 in H. cbv zeta in H. inv_step H.
  do 3 eexists. unfold report_metric, report_field.
  repeat match goal with
  | G : _ = Ok _ |- _ => rewrite G
  end.
  repeat split; try eassumption. world_eq.
Qed.

End CellsReturn.

(** ** A run that completes *)

Lemma file_name_configuration q a b :
  Py.getitem (Py.split_sep "/" (DATA_URL (configuration q a b))) (-1)
  = Ok "wikigold.conll.txt".
Proof. destruct q; vm_compute; reflexivity. Qed.

Lemma getitem_minus_one {A : Type} (l : list A) d x :
  Py.getitem l (-1) = Ok x -> List.last l d = x.
Proof.
  unfold Py.getitem. cbv zeta. change (-1 <? 0) with true. cbv iota.
  destruct (_ || _); [discriminate|].
  destruct (nth_error l _) as [y|] eqn:N; [|discriminate].
  intros H. injection H as <-.
  destruct l as [|a l] using rev_ind; [destruct (Z.to_nat _); discriminate N|].
  rewrite last_last. rewrite length_app in N. cbn [List.length] in N.
  replace (Z.to_nat (Z.of_nat (List.length l + 1) + -1)) with (List.length l)
    in N by lia.
  rewrite nth_error_app2, Nat.sub_diag in N by lia. cbn in N.
  injection N as ->. reflexivity.
Qed.

(** [data_file] is the path cell 4 computes, whatever the configuration. *)
Lemma data_file_is_read (c : config) file_name :
  Py.getitem (Py.split_sep "/" (DATA_URL c)) (-1) = Ok file_name ->
  data_file c = Py.path_join (DATA_PATH c) file_name.
Proof.
  intros H. unfold data_file.
  rewrite (getitem_minus_one _ EmptyString _ H). reflexivity.
Qed.

Lemma completed_run (L : library) q rs h (g : globals L) w' :
  notebook_with L q (fresh_kernel rs h) = (Ok g, w') ->
  exists x : Run.internals L,
    Run.explains q g x /\
    trace w' = map (fun ev => (ev, Returned)) (Run.calls g x) /\
    scraps w' =
      [("precision", Run.precision x); ("recall", Run.recall x);
       ("f1", Run.f1 x)].
Proof.
  intros H. unfold notebook_with in H.
  apply bind_ok in H. destruct H as (c & w3 & H3 & H).
  apply bind_ok in H. destruct H as (d & w4 & H4 & H).
  apply bind_ok in H. destruct H as (u5 & w5 & H5 & H).
  apply bind_ok in H. destruct H as (p & w6 & H6 & H).
  apply bind_ok in H. destruct H as (m & w7 & H7 & H).
  apply bind_ok in H. destruct H as (ps & w8 & H8 & H).
  apply bind_ok in H. destruct H as (t & w9 & H9 & H).
  apply bind_ok in H. destruct H as ([pl rep] & w10 & H10 & H).
  apply bind_ok in H. destruct H as (u11 & w11 & H11 & H).
  apply bind_ok in H. destruct H as (u12 & w12 & H12 & H).
  apply ret_ok in H. destruct H as [<- ->].
  apply cell_3_ok in H3. destruct H3 as [Hc W3].
  apply cell_4_ok in H4.
  destruct H4 as (file_name & parsed & k & sampled & F & R & K & P & S1 & S2 & T & W4).
  pose proof (data_file_is_read _ _ F) as DF.
  rewrite Hc, file_name_configuration in F. injection F as <-.
  apply cell_5_ok in H5. destruct H5 as (tokens & tags & df & shown & _ & _ & _ & _ & W5).
  apply cell_6_ok in H6. destruct H6 as (_ & _ & A1 & A2 & A3 & A4 & W6).
  apply cell_7_ok in H7. destruct H7 as (m0 & hours7 & B0 & B1 & W7).
  apply cell_8_ok in H8. destruct H8 as (hours8 & B2 & W8).
  apply cell_9_ok in H9. destruct H9 as (B3 & W9).
  apply cell_10_ok in H10. destruct H10 as (B4 & B5 & W10).
  apply cell_11_ok in H11.
  destruct H11 as (ds & loader & spreds & spl & t1 & t2 & df1 & df2
                   & C1 & C2 & _ & _ & _ & _ & W11).
  apply cell_12_ok in H12. destruct H12 as (pr & re & f & D1 & D2 & D3 & W12).
  exists (Run.Internals L parsed k sampled tokens tags df shown m0 hours7 hours8
            ds loader spreds spl t1 t2 df1 df2 pr re f).
  split.
  { constructor; cbn; try assumption. rewrite DF. assumption. }
  rewrite W12. cbn [trace scraps].
  rewrite W11, W10, W9, W8, W7, W6, W5, W4, W3.
  unfold returned, Run.calls. cbn [trace scraps fresh_kernel Run.parsed
    Run.sample_k Run.sampled Run.shown_tokens Run.shown_tags Run.frame Run.shown
    Run.new_model Run.train_hours Run.predict_hours Run.sample_dataset
    Run.sample_dataloader Run.sample_preds Run.sample_predicted Run.tags1
    Run.tags2 Run.frame1 Run.frame2 Run.precision Run.recall Run.f1
    cfg dat prep model preds true_labels predicted_labels report].
  split; [|reflexivity].
  rewrite !map_app, <- !app_assoc. reflexivity.
Qed.

(** ** Runs that may fail: what a computation appends to the log *)

Section Emits.

Context {L : library}.

Variable P : list (event L * outcome) -> option exn -> Prop.

Hypothesis P_nil : forall s, P [] s.
Hypothesis P_app :
  forall n1 n2 s, P n1 None -> P n2 s -> P (n1 ++ n2) s.

Lemma emits_ret {A : Type} (a : A) : emits P (@ret L A a).
Proof.
  intros w r w' H. inversion H. subst. exists []. rewrite app_nil_r.
  split; [reflexivity | apply P_nil].
Qed.

Lemma emits_lift {A : Type} (r : result A) : emits P (@lift L A r).
Proof.
  intros w r' w' H. inversion H. subst. exists []. rewrite app_nil_r.
  split; [reflexivity | apply P_nil].
Qed.

Lemma emits_call {A : Type} (ev : event L) (r : result A) :
  P [(ev, outcome_of r)] (status r) -> emits P (call ev r).
Proof.
  intros Hev w r' w' H. inversion H. subst. exists [(ev, outcome_of r')].
  split; [reflexivity | exact Hev].
Qed.

Lemma emits_bind {A B : Type} (m : M L A) (f : A -> M L B) :
  emits P m -> (forall a, emits P (f a)) -> emits P (bind m f).
Proof.
  intros Hm Hf w r w' H. unfold bind in H.
  destruct (m w) as [[a|e] w1] eqn:E.
  - destruct (Hm _ _ _ E) as (n1 & T1 & P1).
    destruct (Hf a _ _ _ H) as (n2 & T2 & P2).
    exists (n1 ++ n2). split.
    + rewrite T2, T1, app_assoc. reflexivity.
    + apply P_app; assumption.
  - inversion H. subst. exact (Hm _ _ _ E).
Qed.

Lemma emits_TemporaryDirectory :
  (forall r : result string,
      P [(EvTemporaryDirectory, outcome_of r)] (status r)) ->
  emits P (TemporaryDirectory L).
Proof.
  intros Hev w r w' H. unfold TemporaryDirectory in H.
  destruct (TemporaryDirectory_name L (host w)) as [r0 h0].
  inversion H. subst. eexists. split; [reflexivity | apply Hev].
Qed.

Lemma emits_random_seed (a : Z) :
  P [(EvRandomSeed a, Returned)] None -> emits P (random_seed_ L a).
Proof.
  intros Hev w r w' H. inversion H. subst. eexists.
  split; [reflexivity | exact Hev].
Qed.

Lemma emits_random_sample population k :
  (forall r : result (list (sentence * labels)),
      P [(EvRandomSample population k, outcome_of r)] (status r)) ->
  emits P (random_sample L population k).
Proof.
  intros Hev w r w' H. unfold random_sample in H.
  destruct ((k <? 0) || _).
  - inversion H. subst. eexists. split; [reflexivity|].
    apply (Hev (Raise ValueError)).
  - destruct (random_sample_positions L _ _ _) as [pos rs].
    inversion H. subst. eexists. split; [reflexivity | apply Hev].
Qed.

Lemma emits_print args :
  P [(EvPrint args, Returned)] None -> emits P (print L args).
Proof.
  intros Hev w r w' H. inversion H. subst. eexists.
  split; [reflexivity | exact Hev].
Qed.

Lemma emits_display df :
  P [(EvDisplay df, Returned)] None -> emits P (display L df).
Proof.
  intros Hev w r w' H. inversion H. subst. eexists.
  split; [reflexivity | exact Hev].
Qed.

Lemma emits_glue name x :
  P [(EvGlue name x, Returned)] None -> emits P (glue L name x).
Proof.
  intros Hev w r w' H. inversion H. subst. eexists.
  split; [reflexivity | exact Hev].
Qed.

Lemma emits_with_Timer {A : Type} (body : M L A) :
  emits P body -> emits P (with_Timer body).
Proof.
  intros Hb w r w' H. unfold with_Timer, tick in H.
  destruct (default_timer L (host w)) as [t0 h0].
  destruct (body _) as [[a|e] w1] eqn:E.
  - destruct (default_timer L (host w1)) as [t1 h1]. inversion H. subst.
    destruct (Hb _ _ _ E) as (new & T & Pn). exists new. split; assumption.
  - destruct (default_timer L (host w1)) as [t1 h1]. inversion H. subst.
    destruct (Hb _ _ _ E) as (new & T & Pn). exists new. split; assumption.
Qed.

Lemma emits_for_each {A : Type} (xs : list A) (body : A -> M L unit) :
  (forall x, emits P (body x)) -> emits P (for_each xs body).
Proof.
  intros Hb. induction xs as [|x xs IH]; cbn [for_each].
  - apply emits_ret.
  - apply emits_bind; [apply Hb | intros _; exact IH].
Qed.

End Emits.

(** The rule that fits the head of the computation, with [side] for what
    [P] must grant of a single call. *)
Ltac emits_tac Pnil Papp side :=
  lazymatch goal with
  | |- emits _ (bind _ _) =>
      apply (emits_bind _ Papp);
      [emits_tac Pnil Papp side | intro; emits_tac Pnil Papp side]
  | |- emits _ (ret _) => apply (emits_ret _ Pnil)
  | |- emits _ (lift _) => apply (emits_lift _ Pnil)
  | |- emits _ (float_ _ _) => apply (emits_lift _ Pnil)
  | |- emits _ (call _ _) => apply emits_call; side
  | |- emits _ (with_Timer _) =>
      apply emits_with_Timer; emits_tac Pnil Papp side
  | |- emits _ (for_each _ _) =>
      apply (emits_for_each _ Pnil Papp); intro; emits_tac Pnil Papp side
  | |- emits _ (TemporaryDirectory _) =>
      apply emits_TemporaryDirectory; intro; side
  | |- emits _ (random_seed_ _ _) => apply emits_random_seed; side
  | |- emits _ (random_sample _ _ _) =>
      apply emits_random_sample; intro; side
  | |- emits _ (print _ _) => apply emits_print; side
  | |- emits _ (display _ _) => apply emits_display; side
  | |- emits _ (glue _ _ _) => apply emits_glue; side
  | |- emits _ (match ?x with (_, _) => _ end) =>
      destruct x; emits_tac Pnil Papp side
  | |- emits _ (sub_sample _ _ _ _) =>
      unfold sub_sample; emits_tac Pnil Papp side
  | |- emits _ (cell_3 _ _) => unfold cell_3; cbv zeta; emits_tac Pnil Papp side
  | |- emits _ (cell_4 _ _) => unfold cell_4; cbv zeta; emits_tac Pnil Papp side
  | |- emits _ (cell_5 _ _) => unfold cell_5; emits_tac Pnil Papp side
  | |- emits _ (cell_6 _ _ _) => unfold cell_6; emits_tac Pnil Papp side
  | |- emits _ (cell_7 _ _ _) => unfold cell_7; cbv zeta; emits_tac Pnil Papp side
  | |- emits _ (cell_8 _ _ _) => unfold cell_8; emits_tac Pnil Papp side
  | |- emits _ (cell_9 _ _ _) => unfold cell_9; emits_tac Pnil Papp side
  | |- emits _ (cell_10 _ _ _ _ _) => unfold cell_10; emits_tac Pnil Papp side
  | |- emits _ (cell_11 _ _ _ _) => unfold cell_11; cbv zeta; emits_tac Pnil Papp side
  | |- emits _ (cell_12 _ _) => unfold cell_12; cbv zeta; emits_tac Pnil Papp side
  | |- emits _ (notebook_with _ _) => unfold notebook_with; emits_tac Pnil Papp side
  end.

(** *** Failures pass through *)

Section Propagated.

Context {L : library}.

Lemma clean_app (a b : list (event L * outcome)) :
  clean a -> clean b -> clean (a ++ b).
Proof. unfold clean. intros. apply Forall_app. split; assumption. Qed.

Lemma propagated_nil s : @propagated L [] s.
Proof. destruct s; cbn; [left|]; constructor. Qed.

Lemma propagated_app (n1 n2 : list (event L * outcome)) s :
  propagated n1 None -> propagated n2 s -> propagated (n1 ++ n2) s.
Proof.
  destruct s as [e|]; cbn; intros H1 H2.
  - destruct H2 as [H2 | (pre & ev & -> & H2)].
    + left. apply clean_app; assumption.
    + right. exists (n1 ++ pre), ev. rewrite app_assoc. split; [reflexivity|].
      apply clean_app; assumption.
  - apply clean_app; assumption.
Qed.

Lemma propagated_one {A : Type} (ev : event L) (r : result A) :
  propagated [(ev, outcome_of r)] (status r).
Proof.
  destruct r as [a|e]; cbn.
  - repeat constructor.
  - right. exists [], ev. split; [reflexivity | constructor].
Qed.

Lemma propagated_returned (ev : event L) : propagated [(ev, Returned)] None.
Proof. repeat constructor. Qed.

Lemma notebook_propagates q : emits propagated (notebook_with L q).
Proof.
  emits_tac (@propagated_nil) (@propagated_app)
    ltac:(first [apply propagated_one | apply propagated_returned]).
Qed.

(** In a log that fits its ending, a call that raised is the last one and
    raised the exception of the ending. *)
Lemma raised_is_last (new : list (event L * outcome)) s pre ev e post :
  propagated new s ->
  new = pre ++ (ev, Raised e) :: post ->
  post = [] /\ s = Some e.
Proof.
  intros Hp ->.
  assert (Hnot : ~ clean (pre ++ (ev, Raised e) :: post)).
  { intros Hc. apply Forall_app in Hc. destruct Hc as [_ Hc].
    inversion Hc as [|x l Hx]. discriminate Hx. }
  destruct s as [e'|]; cbn in Hp; [|contradiction].
  destruct Hp as [Hp | (pre' & ev' & E & Hc)]; [contradiction|].
  clear Hnot. revert pre' E Hc.
  induction pre as [|x pre IH]; intros pre' E Hc.
  - destruct pre' as [|y pre'].
    + cbn in E. inversion E. split; reflexivity.
    + cbn in E. inversion E as [[Ey Erest]]. subst y.
      inversion Hc as [|y l Hy]. discriminate Hy.
  - destruct pre' as [|y pre'].
    + cbn in E. inversion E as [[Ex Erest]].
      destruct pre; discriminate Erest.
    + cbn in E. inversion E as [[Ex Erest]].
      inversion Hc as [|y' l' Hy Hl]. subst. exact (IH pre' Erest Hl).
Qed.

End Propagated.

(** ** Runs on the small library *)

Lemma returned_of_status {A : Type} (r : result A) :
  status r = None -> exists a, r = Ok a.
Proof. destruct r as [a|e]; [eexists; reflexivity | discriminate]. Qed.

Lemma toy_run_completes q :
  exists g,
    notebook_with (Toy.lib Toy.NoFailure) q (Toy.start Toy.NoFailure)
    = (Ok g,
       snd (notebook_with (Toy.lib Toy.NoFailure) q (Toy.start Toy.NoFailure))).
Proof.
  assert (S : status (fst (notebook_with (Toy.lib Toy.NoFailure) q
                             (Toy.start Toy.NoFailure))) = None)
    by (destruct q; vm_compute; reflexivity).
  destruct (returned_of_status _ S) as [g E]. exists g.
  rewrite <- E. apply surjective_pairing.
Qed.

Lemma toy_run_steps :
  in_order
    (steps (trace (snd (notebook_with (Toy.lib Toy.NoFailure) false
                          (Toy.start Toy.NoFailure))))) = false.
Proof. vm_compute. reflexivity. Qed.

(** ** The order of the pipeline *)

(** C1, as the specification states it, fails: it is not so that in every
    completed run no step runs before a step that precedes it in the
    pipeline.  On the small library the loader of the training dataset is
    built before the test dataset is wrapped, and cell 11 wraps, loads and
    predicts again after the metrics. *)
Lemma pipeline_order_is_not_strict :
  ~ (forall (L : library) q rs h (g : globals L) w',
        notebook_with L q (fresh_kernel rs h) = (Ok g, w') ->
        in_order (steps (trace w')) = true).
Proof.
  intros H. destruct (toy_run_completes false) as [g E].
  apply (H (Toy.lib Toy.NoFailure) false 0 0%nat) in E.
  rewrite toy_run_steps in E. discriminate E.
Qed.

(** C1, amended: in every run that completes, the calls go through the
    listed steps in the order [observed_steps]: configuration, download,
    parse, split, then dataset and loader for the training part and again
    for the test part, instantiate, fit, predict, metrics, and last the
    example cell, which wraps, loads and predicts once more before it
    prints.  Each step is first seen in the order of the pipeline. *)
Theorem steps_of_a_completed_run (L : library) q rs h (g : globals L) w' :
  notebook_with L q (fresh_kernel rs h) = (Ok g, w') ->
  steps (trace w') = observed_steps /\
  first_seen [] (steps (trace w')) = pipeline.
Proof.
  intros H. apply completed_run in H. destruct H as (x & _ & T & _).
  rewrite T. split; reflexivity.
Qed.

Lemma steps_of_a_completed_run_witness :
  steps (trace (snd (notebook_with (Toy.lib Toy.NoFailure) true
                       (Toy.start Toy.NoFailure)))) = observed_steps /\
  first_seen []
    (steps (trace (snd (notebook_with (Toy.lib Toy.NoFailure) true
                          (Toy.start Toy.NoFailure))))) = pipeline.
Proof.
  destruct (toy_run_completes true) as [g E].
  exact (steps_of_a_completed_run (Toy.lib Toy.NoFailure) true 0 0%nat g _ E).
Defined.

(** ** Failures of the libraries *)

(** C2: whatever the libraries do, a call that raised is the last call of
    the run, and the run ends with the exception that call raised: nothing
    runs after it, so nothing is caught, retried or recovered. *)
Theorem library_failure_ends_the_run (L : library) q rs h
    (r : result (globals L)) w' pre ev e post :
  notebook_with L q (fresh_kernel rs h) = (r, w') ->
  trace w' = pre ++ (ev, Raised e) :: post ->
  post = [] /\ r = Raise e.
Proof.
  intros H T. destruct (notebook_propagates q _ _ _ H) as (new & N & Pn).
  cbn [fresh_kernel trace app] in N. rewrite N in T.
  destruct (raised_is_last _ _ _ _ _ _ Pn T) as [-> S].
  split; [reflexivity|]. destruct r; cbn in S; congruence.
Qed.

Lemma library_failure_ends_the_run_witness :
  @nil (event (Toy.lib Toy.DownloadFails) * outcome) = [] /\
  fst (notebook_with (Toy.lib Toy.DownloadFails) false
         (Toy.start Toy.DownloadFails))
  = Raise (LibraryError "HTTPError").
Proof.
  apply (library_failure_ends_the_run (Toy.lib Toy.DownloadFails) false
           0 0%nat _
           (snd (notebook_with (Toy.lib Toy.DownloadFails) false
                   (Toy.start Toy.DownloadFails)))
           [(EvTemporaryDirectory, Returned); (EvTemporaryDirectory, Returned);
            (EvManualSeed 100, Returned)]
           (EvMaybeDownload
              (DATA_URL (configuration false EmptyString EmptyString))
              "wikigold.conll.txt" "/tmp/tmpa")).
  - apply surjective_pairing.
  - reflexivity.
Defined.

(** ** The metrics glued as outputs *)

(** C3, as the specification states it, fails: the second-to-last line
    of the report, which cell 12 reads, need not be the macro-average row.
    On a library whose report ends with a weighted-average row after the
    macro-average one, a run completes and that line is the weighted
    row. *)
Lemma the_row_read_need_not_be_the_macro_average :
  ~ (forall (L : library) q rs h (g : globals L) w',
        notebook_with L q (fresh_kernel rs h) = (Ok g, w') ->
        exists line,
          Py.getitem (Py.split_sep LF (report g)) (-2) = Ok line /\
          macro_average_row line = true).
Proof.
  intros H.
  assert (S : status (fst (notebook_with (Toy.lib Toy.NewerReport) false
                             (Toy.start Toy.NewerReport))) = None)
    by (vm_compute; reflexivity).
  destruct (returned_of_status _ S) as [g E].
  assert (E' : notebook_with (Toy.lib Toy.NewerReport) false
                 (Toy.start Toy.NewerReport)
               = (Ok g, snd (notebook_with (Toy.lib Toy.NewerReport) false
                               (Toy.start Toy.NewerReport))))
    by (rewrite <- E; apply surjective_pairing).
  destruct (H (Toy.lib Toy.NewerReport) false 0 0%nat g _ E')
    as (line & G & M).
  apply completed_run in E'. destruct E' as (x & Ex & _ & _).
  pose proof (Run.was_reported _ _ _ Ex) as R. cbn in R.
  injection R as R. rewrite <- R in G. clear R.
  vm_compute in G. injection G as <-. vm_compute in M. discriminate M.
Qed.

(** C3, amended: a run that completes glues exactly three scraps, named
    "precision", "recall" and "f1" in this order; their values are the
    floats parsed from fields 2, 3 and 4 of the second-to-last line of the
    string that [classification_report] returned, whichever row of the
    report that line is. *)
Theorem three_metrics_are_glued (L : library) q rs h (g : globals L) w' :
  notebook_with L q (fresh_kernel rs h) = (Ok g, w') ->
  exists precision recall f1,
    classification_report L (true_labels g) (predicted_labels g) 2
    = Ok (report g) /\
    report_metric L (report g) 2 = Some precision /\
    report_metric L (report g) 3 = Some recall /\
    report_metric L (report g) 4 = Some f1 /\
    scraps w' = [("precision", precision); ("recall", recall); ("f1", f1)].
Proof.
  intros H. apply completed_run in H. destruct H as (x & E & _ & S).
  exists (Run.precision x), (Run.recall x), (Run.f1 x).
  destruct E. repeat split; assumption.
Qed.

Lemma three_metrics_are_glued_witness :
  exists precision recall f1,
    scraps (snd (notebook_with (Toy.lib Toy.NoFailure) false
                   (Toy.start Toy.NoFailure)))
    = [("precision", precision); ("recall", recall); ("f1", f1)].
Proof.
  destruct (toy_run_completes false) as [g E].
  destruct (three_metrics_are_glued (Toy.lib Toy.NoFailure) false 0 0%nat g _ E)
    as (precision & recall & f1 & _ & _ & _ & _ & S).
  exists precision, recall, f1. exact S.
Defined.

(** On the report saved in the notebook the second-to-last line is the
    macro-average row, and the run on the small library glues the three
    values the notebook's own outputs show.  On the report of later
    releases the values glued are those of the weighted-average row. *)
Example recorded_report_row :
  Py.getitem (Py.split_sep LF Toy.recorded_report) (-2)
  = Ok "macro avg       0.78      0.82      0.80      1069".
Proof. vm_compute. reflexivity. Qed.

Example recorded_scraps :
  scraps (snd (notebook_with (Toy.lib Toy.NoFailure) false
                 (Toy.start Toy.NoFailure)))
  = [("precision", 0.78%float); ("recall", 0.82%float); ("f1", 0.8%float)].
Proof. vm_compute. reflexivity. Qed.

Example newer_report_scraps :
  scraps (snd (notebook_with (Toy.lib Toy.NewerReport) false
                 (Toy.start Toy.NewerReport)))
  = [("precision", 0.79%float); ("recall", 0.82%float); ("f1", 0.8%float)].
Proof. vm_compute. reflexivity. Qed.

(** ** Training *)

Section Fits.

Context {L : library}.

Lemma fit_epochs_app (a b : list (event L * outcome)) :
  fit_epochs (a ++ b) = fit_epochs a ++ fit_epochs b.
Proof.
  induction a as [|[ev o] a IH]; [reflexivity|].
  cbn [app fit_epochs]. destruct ev; rewrite ?IH; reflexivity.
Qed.

Lemma no_fit_nil s : @no_fit L [] s.
Proof. reflexivity. Qed.

Lemma no_fit_app (n1 n2 : list (event L * outcome)) s :
  no_fit n1 None -> no_fit n2 s -> no_fit (n1 ++ n2) s.
Proof.
  unfold no_fit. intros H1 H2. rewrite fit_epochs_app, H1, H2. reflexivity.
Qed.

Lemma through_preprocessing_no_fit q :
  emits no_fit (through_preprocessing L q).
Proof.
  unfold through_preprocessing.
  emits_tac (@no_fit_nil) (@no_fit_app) ltac:(reflexivity).
Qed.

Lemma after_training_no_fit c d p m :
  emits no_fit (after_training L c d p m).
Proof.
  unfold after_training.
  emits_tac (@no_fit_nil) (@no_fit_app) ltac:(reflexivity).
Qed.

(** Cell 7 calls [fit] at most once, with [NUM_TRAIN_EPOCHS]. *)
Lemma cell_7_fits c p (w : world L) r w' :
  cell_7 L c p w = (r, w') ->
  exists new,
    trace w' = trace w ++ new /\
    (fit_epochs new = [] \/ fit_epochs new = [NUM_TRAIN_EPOCHS c]) /\
    (status r = None -> fit_epochs new = [NUM_TRAIN_EPOCHS c]).
Proof.
  unfold cell_7, bind, call, with_Timer, tick, print, ret, log. cbn zeta.
  destruct (TokenClassifier L _ _ _) as [m0|e0]; cbn [trace random_state host scraps].
  - destruct (default_timer L (host w)) as [t0 h0].
    cbn [trace random_state host scraps outcome_of].
    destruct (fit L _ _ _ _ _ _ _ _ _ _ _) as [m|e].
    + destruct (default_timer L h0) as [t1 h1].
      cbn [trace random_state host scraps outcome_of].
      intros H. inversion H. subst. cbn [trace].
      eexists. split; [rewrite <- !app_assoc; reflexivity|].
      cbn. split; [right|intros _]; reflexivity.
    + cbn [snd]. destruct (default_timer L h0) as [t1 h1].
      intros H. inversion H. subst. cbn [trace].
      eexists. split; [rewrite <- !app_assoc; reflexivity|].
      cbn. split; [right; reflexivity | discriminate].
  - intros H. inversion H. subst. cbn [trace].
    eexists. split; [reflexivity|].
    cbn. split; [left; reflexivity | discriminate].
Qed.

(** The notebook is its cells through preprocessing, then cell 7, then the
    cells after training. *)
Lemma notebook_with_split q (w : world L) :
  notebook_with L q w =
  bind (through_preprocessing L q)
    (fun x => match x with
              | (c, d, p) =>
                  bind (cell_7 L c p) (fun m => after_training L c d p m)
              end) w.
Proof.
  unfold notebook_with, through_preprocessing, after_training, bind, ret.
  destruct (cell_3 L q w) as [[c|e] w3]; [|reflexivity].
  destruct (cell_4 L c w3) as [[d|e] w4]; [|reflexivity].
  destruct (cell_5 L d w4) as [[u|e] w5]; [|reflexivity].
  destruct (cell_6 L c d w5) as [[p|e] w6]; reflexivity.
Qed.

Lemma through_preprocessing_configured q (w : world L) c d p w' :
  through_preprocessing L q w = (Ok (c, d, p), w') ->
  c = configuration q (DATA_PATH c) (CACHE_DIR c).
Proof.
  intros H. unfold through_preprocessing in H.
  apply bind_ok in H. destruct H as (c0 & w3 & H3 & H).
  apply bind_ok in H. destruct H as (d0 & w4 & H4 & H).
  apply bind_ok in H. destruct H as (u0 & w5 & H5 & H).
  apply bind_ok in H. destruct H as (p0 & w6 & H6 & H).
  apply ret_ok in H. destruct H as [E _]. injection E as -> -> ->.
  apply cell_3_ok in H3. apply H3.
Qed.

End Fits.

(** C4: the notebook trains the model once.  No run, failed or not, calls
    [fit] more than once, and a call of [fit] is given
    [num_epochs = NUM_TRAIN_EPOCHS], which is 1 when [QUICK_RUN] is set
    and 5 when it is not.  A run that completes has made exactly this one
    call, on the model that [TokenClassifier] returned and the loader of
    the training part; the model the notebook keeps and gives to both
    calls of [predict] is the one that call of [fit] returned. *)
Theorem one_training_pass (L : library) q rs h (r : result (globals L)) w' :
  notebook_with L q (fresh_kernel rs h) = (r, w') ->
  (fit_epochs (trace w') = [] \/
   fit_epochs (trace w') = [if q then 1 else 5]) /\
  (forall g, r = Ok g ->
     fit_epochs (trace w') = [NUM_TRAIN_EPOCHS (cfg g)] /\
     NUM_TRAIN_EPOCHS (cfg g) = (if q then 1 else 5) /\
     exists m0,
       TokenClassifier L "bert-base-cased"
         (Z.of_nat (List.length (label_map (prep g)))) (CACHE_DIR (cfg g))
       = Ok m0 /\
       fit_calls (trace w')
       = [EvFit m0 (train_dataloader (prep g)) (NUM_TRAIN_EPOCHS (cfg g))
            None (-1) 0.0%float 5e-5%float 1e-8%float 0 false 100] /\
       fit L m0 (train_dataloader (prep g)) (NUM_TRAIN_EPOCHS (cfg g))
         None (-1) 0.0%float 5e-5%float 1e-8%float 0 false 100
       = Ok (model g) /\
       predict_models (trace w') = [model g; model g] /\
       predict L (model g) (test_dataloader (prep g)) None true
       = Ok (preds g)).
Proof.
  intros H. split.
  - rewrite notebook_with_split in H. unfold bind at 1 in H.
    destruct (through_preprocessing L q (fresh_kernel rs h))
      as [[[[c d] p]|e] w1] eqn:E1.
    + destruct (through_preprocessing_no_fit q _ _ _ E1) as (n1 & T1 & Q1).
      pose proof (through_preprocessing_configured _ _ _ _ _ _ E1) as Hc.
      assert (HE : NUM_TRAIN_EPOCHS c = if q then 1 else 5)
        by (rewrite Hc; destruct q; reflexivity).
      unfold bind in H.
      destruct (cell_7 L c p w1) as [[m|e] w2] eqn:E2.
      * destruct (cell_7_fits _ _ _ _ _ E2) as (n2 & T2 & _ & Q2).
        destruct (after_training_no_fit c d p m _ _ _ H) as (n3 & T3 & Q3).
        rewrite T3, T2, T1. cbn [fresh_kernel trace app].
        rewrite !fit_epochs_app, Q1, Q3, (Q2 eq_refl), HE. right. reflexivity.
      * inversion H. subst.
        destruct (cell_7_fits _ _ _ _ _ E2) as (n2 & T2 & Q2 & _).
        rewrite T2, T1. cbn [fresh_kernel trace app].
        rewrite fit_epochs_app, Q1, <- HE. exact Q2.
    + inversion H. subst.
      destruct (through_preprocessing_no_fit q _ _ _ E1) as (n1 & T1 & Q1).
      rewrite T1. left. exact Q1.
  - intros g ->. apply completed_run in H. destruct H as (x & E & T & _).
    rewrite T.
    assert (Hn : MODEL_NAME (cfg g) = "bert-base-cased")
      by (rewrite (Run.configured _ _ _ E); destruct q; reflexivity).
    assert (Hg : NUM_GPUS (cfg g) = None)
      by (rewrite (Run.configured _ _ _ E); destruct q; reflexivity).
    assert (Hs : RANDOM_SEED (cfg g) = 100)
      by (rewrite (Run.configured _ _ _ E); destruct q; reflexivity).
    split; [reflexivity|]. split.
    { rewrite (Run.configured _ _ _ E). destruct q; reflexivity. }
    exists (Run.new_model x).
    pose proof (Run.was_instantiated _ _ _ E) as I.
    pose proof (Run.was_fitted _ _ _ E) as F.
    rewrite Hn in I. rewrite Hg, Hs in F.
    repeat split; try assumption.
    + cbn. rewrite Hg, Hs. reflexivity.
    + exact (Run.was_predicted _ _ _ E).
Qed.

Lemma one_training_pass_witness :
  exists g m0,
    fit_epochs (trace (snd (notebook_with (Toy.lib Toy.NoFailure) true
                              (Toy.start Toy.NoFailure)))) = [1] /\
    fit (Toy.lib Toy.NoFailure) m0 (train_dataloader (prep g)) 1
      None (-1) 0.0%float 5e-5%float 1e-8%float 0 false 100
    = Ok (model g) /\
    predict_models (trace (snd (notebook_with (Toy.lib Toy.NoFailure) true
                                  (Toy.start Toy.NoFailure))))
    = [model g; model g].
Proof.
  destruct (toy_run_completes true) as [g E].
  destruct (one_training_pass (Toy.lib Toy.NoFailure) true 0 0%nat _ _ E)
    as [_ H].
  destruct (H g eq_refl) as (A & B & m0 & _ & _ & F & P & _).
  exists g, m0. rewrite B in A, F. repeat split; assumption.
Defined.

(** ** The held-out split *)

Section Split.

Context {L : library}.

Lemma train_test_split_ok X y test_size seed a b c d :
  train_test_split L X y test_size seed = Ok (a, b, c, d) ->
  exists train test,
    split_indices L (List.length X) test_size seed = Ok (train, test) /\
    Py.pick X train = Ok a /\ Py.pick X test = Ok b /\
    Py.pick y train = Ok c /\ Py.pick y test = Ok d.
Proof.
  unfold train_test_split.
  destruct (negb _); [discriminate|].
  destruct (split_indices L _ _ _) as [[train test]|e] eqn:E;
    [|discriminate].
  destruct (Py.pick X train) eqn:E1; [|discriminate].
  destruct (Py.pick X test) eqn:E2; [|discriminate].
  destruct (Py.pick y train) eqn:E3; [|discriminate].
  destruct (Py.pick y test) eqn:E4; [|discriminate].
  intros H. inversion H. subst. exists train, test.
  repeat split; assumption.
Qed.

(** A shuffle of the positions holds no position twice. *)
Lemma transpose_NoDup n i j order :
  NoDup order -> NoDup (transpose n i j order).
Proof.
  intros H. unfold transpose. destruct (_ && _); [|exact H].
  induction H as [|x l Hx Hl IH]; cbn [map]; constructor; [|exact IH].
  intros Hin. apply in_map_iff in Hin. destruct Hin as (y & Hy & Hyl).
  assert (y = x); [|subst; contradiction].
  destruct (Nat.eqb_spec y i), (Nat.eqb_spec x i),
    (Nat.eqb_spec y j), (Nat.eqb_spec x j); congruence.
Qed.

Lemma shuffled_NoDup n swaps : NoDup (shuffled n swaps).
Proof.
  unfold shuffled. generalize (seq_NoDup n 0). generalize (seq 0 n).
  induction swaps as [|s swaps IH]; intros order H; cbn [fold_left].
  - exact H.
  - apply IH. apply transpose_NoDup. exact H.
Qed.

Lemma NoDup_cut {A : Type} (k : nat) (l : list A) x :
  NoDup l -> In x (skipn k l) -> ~ In x (firstn k l).
Proof.
  intros H. rewrite <- (firstn_skipn k l) in H.
  induction (firstn k l) as [|y f IH]; cbn [app] in H.
  - intros _ [].
  - inversion H as [|z r Hz Hr]. subst. intros Hs [->|Hf].
    + apply Hz. apply in_or_app. right. exact Hs.
    + exact (IH Hr Hs Hf).
Qed.

(** The two parts of a split share no position. *)
Lemma split_indices_disjoint n test_size seed train test :
  split_indices L n test_size seed = Ok (train, test) ->
  forall i, In i train -> ~ In i test.
Proof.
  unfold split_indices.
  destruct (train_test_split_shuffle L n test_size seed) as [[swaps k]|e];
    [|discriminate].
  intros H. injection H as <- <-. intros i.
  apply NoDup_cut. apply shuffled_NoDup.
Qed.

End Split.

(** C5, as the specification states it, fails: [predict] is not computed
    on the test split only.  On the small library the second call of
    [predict], in cell 11, is given the loader of the two example
    sentences. *)
Lemma predict_is_not_only_on_the_test_split :
  ~ (forall (L : library) q rs h (g : globals L) w',
        notebook_with L q (fresh_kernel rs h) = (Ok g, w') ->
        forall loader,
          In loader (predict_loaders (trace w')) ->
          loader = test_dataloader (prep g)).
Proof.
  intros H. destruct (toy_run_completes false) as [g E].
  pose proof (H (Toy.lib Toy.NoFailure) false 0 0%nat g _ E) as H'.
  apply completed_run in E. destruct E as (x & Ex & T & _).
  rewrite T in H'.
  pose proof (H' (Run.sample_dataloader x)
                (or_intror (or_introl eq_refl))) as A.
  pose proof (Run.sample_wrapped _ _ _ Ex) as B.
  pose proof (Run.sample_loaded _ _ _ Ex) as C.
  pose proof (Run.test_wrapped _ _ _ Ex) as D.
  pose proof (Run.test_loaded _ _ _ Ex) as F.
  rewrite A in C. cbn in B, C, D, F.
  injection B as B. injection C as C. injection D as D. injection F as F.
  rewrite <- F, <- D, <- B in C. discriminate C.
Qed.

(** C5, amended: in a run that completes, the test sentences and labels
    are the test part of one [train_test_split] of the sub-sample with
    test fraction 0.3, at positions that are none of the training
    positions; [fit] is given the loader of the training part only; the
    classification report is computed on the labels and predictions of
    the test dataset only; [predict] is called on the test loader and, in
    cell 11, once more on the loader of the two example sentences. *)
Theorem the_scored_split_is_held_out (L : library) q rs h (g : globals L) w' :
  notebook_with L q (fresh_kernel rs h) = (Ok g, w') ->
  held_out g w'.
Proof.
  intros H. apply completed_run in H. destruct H as (x & E & T & _).
  destruct E.
  assert (Hf : TEST_DATA_FRACTION (cfg g) = 0.3%float)
    by (rewrite configured; destruct q; reflexivity).
  assert (Hs : RANDOM_SEED (cfg g) = 100)
    by (rewrite configured; destruct q; reflexivity).
  assert (Hm : MAX_SEQ_LENGTH (cfg g) = 200)
    by (rewrite configured; destruct q; reflexivity).
  assert (Ht : TRAILING_PIECE_TAG (cfg g) = "X")
    by (rewrite configured; destruct q; reflexivity).
  assert (Hb : BATCH_SIZE (cfg g) = 16)
    by (rewrite configured; destruct q; reflexivity).
  assert (Hn : NUM_GPUS (cfg g) = None)
    by (rewrite configured; destruct q; reflexivity).
  rewrite ?Hf, ?Hs, ?Hm, ?Ht, ?Hb, ?Hn in *.
  constructor.
  - exact Hf.
  - apply train_test_split_ok in was_split.
    destruct was_split as (train & test & S & P1 & P2 & P3 & P4).
    exists train, test. repeat split; try assumption.
    exact (split_indices_disjoint _ _ _ _ _ S).
  - rewrite T. repeat split; assumption.
  - split; assumption.
  - exists (Run.sample_dataset x), (Run.sample_dataloader x).
    rewrite T. repeat split; assumption.
  - rewrite T. repeat split; assumption.
Qed.

Lemma the_scored_split_is_held_out_witness :
  exists g,
    held_out g (snd (notebook_with (Toy.lib Toy.NoFailure) false
                       (Toy.start Toy.NoFailure))).
Proof.
  destruct (toy_run_completes false) as [g E]. exists g.
  exact (the_scored_split_is_held_out (Toy.lib Toy.NoFailure) false 0 0%nat
           g _ E).
Defined.

(** ** The glue code through preprocessing *)

Lemma preprocessing_completed (L : library) q rs h c d p w' :
  through_preprocessing L q (fresh_kernel rs h) = (Ok (c, d, p), w') ->
  c = configuration q (DATA_PATH c) (CACHE_DIR c) /\
  callees (trace w') = preprocessing_callees.
Proof.
  intros H. unfold through_preprocessing in H.
  apply bind_ok in H. destruct H as (c0 & w3 & H3 & H).
  apply bind_ok in H. destruct H as (d0 & w4 & H4 & H).
  apply bind_ok in H. destruct H as (u0 & w5 & H5 & H).
  apply bind_ok in H. destruct H as (p0 & w6 & H6 & H).
  apply ret_ok in H. destruct H as [E ->]. injection E as -> -> ->.
  apply cell_3_ok in H3. destruct H3 as [Hc W3].
  apply cell_4_ok in H4.
  destruct H4 as (file_name & parsed & k & sampled & _ & _ & _ & _ & _ & _ & _ & W4).
  apply cell_5_ok in H5. destruct H5 as (tokens & tags & df & shown & _ & _ & _ & _ & W5).
  apply cell_6_ok in H6. destruct H6 as (_ & _ & _ & _ & _ & _ & W6).
  split; [exact Hc|].
  rewrite W6, W5, W4, W3. unfold returned, callees.
  cbn [trace fresh_kernel app]. rewrite !map_app. reflexivity.
Qed.

(** C6, as the specification states it, fails: the result of the cells
    through preprocessing does depend on a condition the notebook
    evaluates.  On the small library the sub-sample has two sentences when
    [QUICK_RUN] is set and twenty when it is not. *)
Lemma preprocessing_depends_on_QUICK_RUN :
  ~ (forall (L : library) (w : world L) c1 d1 p1 w1 c2 d2 p2 w2,
        through_preprocessing L true w = (Ok (c1, d1, p1), w1) ->
        through_preprocessing L false w = (Ok (c2, d2, p2), w2) ->
        d1 = d2).
Proof.
  intros H.
  pose (size := fun r : result (config * data * prepared (Toy.lib Toy.NoFailure)) =>
                  match r with
                  | Ok (_, d, _) => List.length (sentence_list d)
                  | Raise _ => O
                  end).
  pose (run := fun q => fst (through_preprocessing (Toy.lib Toy.NoFailure) q
                               (Toy.start Toy.NoFailure))).
  assert (S1 : size (run true) = 2%nat) by (vm_compute; reflexivity).
  assert (S2 : size (run false) = 20%nat) by (vm_compute; reflexivity).
  destruct (run true) as [[[c1 d1] p1]|e1] eqn:E1; [|discriminate S1].
  destruct (run false) as [[[c2 d2] p2]|e2] eqn:E2; [|discriminate S2].
  cbn in S1, S2.
  assert (D : d1 = d2).
  { apply (H (Toy.lib Toy.NoFailure) (Toy.start Toy.NoFailure)
             c1 d1 p1 (snd (through_preprocessing (Toy.lib Toy.NoFailure) true
                              (Toy.start Toy.NoFailure)))
             c2 d2 p2 (snd (through_preprocessing (Toy.lib Toy.NoFailure) false
                              (Toy.start Toy.NoFailure)))).
    - rewrite <- E1. apply surjective_pairing.
    - rewrite <- E2. apply surjective_pairing. }
  rewrite D in S1. rewrite S1 in S2. discriminate S2.
Qed.

(** C6, amended: the cells from configuration through preprocessing hold
    one conditional, [if QUICK_RUN] in cell 3, which selects
    [SAMPLE_RATIO] (0.1 or 1) and [NUM_TRAIN_EPOCHS] (1 or 5) and nothing
    else of the configuration; apart from it they are straight-line:
    whatever the flag and whatever the libraries return, a run that gets
    through preprocessing has called the same library functions in the
    same order. *)
Theorem glue_code_is_straight_line (L : library) q rs h c d p w' :
  through_preprocessing L q (fresh_kernel rs h) = (Ok (c, d, p), w') ->
  c = selected q (DATA_PATH c) (CACHE_DIR c) /\
  callees (trace w') = preprocessing_callees.
Proof.
  intros H. apply preprocessing_completed in H. destruct H as [Hc T].
  split; [|exact T]. rewrite Hc at 1. destruct q; reflexivity.
Qed.

Lemma toy_preprocessing_completes q :
  exists c d p,
    through_preprocessing (Toy.lib Toy.NoFailure) q (Toy.start Toy.NoFailure)
    = (Ok (c, d, p),
       snd (through_preprocessing (Toy.lib Toy.NoFailure) q
              (Toy.start Toy.NoFailure))).
Proof.
  assert (S : status (fst (through_preprocessing (Toy.lib Toy.NoFailure) q
                             (Toy.start Toy.NoFailure))) = None)
    by (destruct q; vm_compute; reflexivity).
  destruct (returned_of_status _ S) as [[[c d] p] E]. exists c, d, p.
  rewrite <- E. apply surjective_pairing.
Qed.

Lemma glue_code_is_straight_line_witness :
  exists c,
    c = selected true (DATA_PATH c) (CACHE_DIR c) /\
    callees (trace (snd (through_preprocessing (Toy.lib Toy.NoFailure) true
                           (Toy.start Toy.NoFailure))))
    = preprocessing_callees.
Proof.
  destruct (toy_preprocessing_completes true) as (c & d & p & E). exists c.
  exact (glue_code_is_straight_line (Toy.lib Toy.NoFailure) true 0 0%nat
           c d p _ E).
Defined.

(** ** Sub-sampling *)

Section Pick.

Context {A : Type}.

Lemma pick_length (l : list A) idx xs :
  Py.pick l idx = Ok xs -> List.length xs = List.length idx.
Proof.
  revert xs. induction idx as [|i idx IH]; intros xs H; cbn in H.
  - injection H as <-. reflexivity.
  - destruct (nth_error l i); [|discriminate].
    destruct (Py.pick l idx) as [ys|e]; [|discriminate].
    injection H as <-. cbn. rewrite (IH ys eq_refl). reflexivity.
Qed.

Lemma pick_nth (l : list A) idx xs n x :
  Py.pick l idx = Ok xs ->
  nth_error xs n = Some x ->
  exists j, nth_error idx n = Some j /\ nth_error l j = Some x.
Proof.
  revert xs n. induction idx as [|i idx IH]; intros xs n H Hn; cbn in H.
  - injection H as <-. destruct n; discriminate Hn.
  - destruct (nth_error l i) as [y|] eqn:Ei; [|discriminate].
    destruct (Py.pick l idx) as [ys|e]; [|discriminate].
    injection H as <-. destruct n as [|n]; cbn in Hn.
    + injection Hn as <-. exists i. split; [reflexivity | exact Ei].
    + destruct (IH ys n eq_refl Hn) as (j & Hj & Hl). exists j.
      split; assumption.
Qed.

Lemma pick_in_range (l : list A) idx :
  Forall (fun i => (i < List.length l)%nat) idx ->
  exists xs, Py.pick l idx = Ok xs.
Proof.
  induction 1 as [|i idx Hi _ IH]; cbn.
  - eexists. reflexivity.
  - destruct (nth_error l i) as [y|] eqn:E.
    + destruct IH as [ys ->]. eexists. reflexivity.
    + apply nth_error_None in E. lia.
Qed.

End Pick.

Lemma nth_error_combine {A B : Type} (s : list A) (l : list B) j a b :
  nth_error (combine s l) j = Some (a, b) <->
  nth_error s j = Some a /\ nth_error l j = Some b.
Proof.
  revert l j. induction s as [|x s IH]; intros l j.
  - cbn. destruct j; split; intros H; try discriminate; destruct H; discriminate.
  - destruct l as [|y l].
    + cbn. destruct j; split; intros H; try discriminate;
        destruct H as [_ H]; discriminate.
    + destruct j as [|j]; cbn.
      * split; [intros H; injection H as <- <-; split; reflexivity|].
        intros [H1 H2]. injection H1 as <-. injection H2 as <-. reflexivity.
      * apply IH.
Qed.

Lemma sampled_positions_length (L : library) seed n k :
  List.length (sampled_positions L seed n k) = Z.to_nat k.
Proof. unfold sampled_positions. rewrite length_map, length_seq. reflexivity. Qed.

(** C7: when the sub-sampling statement of cell 4 returns, the sentence
    list and the label list have one length, which is
    [int(SAMPLE_RATIO * len(sentence_list))] for the parsed list, the
    product and the truncation being Python's; the sentence and the
    labels at one position of the sample stood at one position of the
    parsed data; and every pair of the sample is a pair of the parsed
    data. *)
Theorem sub_sample_keeps_pairs (L : library) c s l (w : world L) s' l' w' :
  sub_sample L c s l w = (Ok (s', l'), w') ->
  List.length s' = List.length l' /\
  Py.int (Py.mul (SAMPLE_RATIO c) (Py.PyInt (Z.of_nat (List.length s))))
  = Ok (Z.of_nat (List.length s')) /\
  (forall i a b,
      nth_error s' i = Some a -> nth_error l' i = Some b ->
      exists j, nth_error s j = Some a /\ nth_error l j = Some b) /\
  (forall pair, In pair (combine s' l') -> In pair (combine s l)).
Proof.
  intros H. apply sub_sample_ok in H.
  destruct H as (k & sampled & K & B & P & N & -> & -> & _).
  assert (Hlen : List.length sampled = Z.to_nat k).
  { rewrite (pick_length _ _ _ P). apply sampled_positions_length. }
  assert (Hpair : forall i a b,
             nth_error (map fst sampled) i = Some a ->
             nth_error (map snd sampled) i = Some b ->
             exists j, nth_error (combine s l) j = Some (a, b)).
  { intros i a b Ha Hb. rewrite nth_error_map in Ha, Hb.
    destruct (nth_error sampled i) as [[a0 b0]|] eqn:E; [|discriminate].
    cbn in Ha, Hb. injection Ha as <-. injection Hb as <-.
    destruct (pick_nth _ _ _ _ _ P E) as (j & _ & Hj). exists j. exact Hj. }
  repeat split.
  - rewrite !length_map. reflexivity.
  - rewrite length_map, Hlen, Z2Nat.id by lia. exact K.
  - intros i a b Ha Hb. destruct (Hpair i a b Ha Hb) as (j & Hj).
    exists j. apply nth_error_combine. exact Hj.
  - intros [a b] Hin. apply In_nth_error in Hin. destruct Hin as (i & Hi).
    apply nth_error_combine in Hi. destruct Hi as [Ha Hb].
    destruct (Hpair i a b Ha Hb) as (j & Hj).
    exact (nth_error_In _ _ Hj).
Qed.

Lemma sub_sample_keeps_pairs_witness :
  exists s' l',
    List.length s' = List.length l' /\
    Py.int (Py.mul (SAMPLE_RATIO (configuration true EmptyString EmptyString))
              (Py.PyInt (Z.of_nat (List.length (fst Toy.corpus)))))
    = Ok (Z.of_nat (List.length s')) /\
    (forall i a b,
        nth_error s' i = Some a -> nth_error l' i = Some b ->
        exists j, nth_error (fst Toy.corpus) j = Some a /\
                  nth_error (snd Toy.corpus) j = Some b) /\
    (forall pair, In pair (combine s' l') ->
                  In pair (combine (fst Toy.corpus) (snd Toy.corpus))).
Proof.
  exists [["A"%string]; ["B"%string]], [["O"%string]; ["I-PER"%string]].
  refine (sub_sample_keeps_pairs (Toy.lib Toy.NoFailure)
            (configuration true EmptyString EmptyString)
            (fst Toy.corpus) (snd Toy.corpus) (Toy.start Toy.NoFailure)
            _ _
            (snd (sub_sample (Toy.lib Toy.NoFailure)
                    (configuration true EmptyString EmptyString)
                    (fst Toy.corpus) (snd Toy.corpus)
                    (Toy.start Toy.NoFailure))) _).
  reflexivity.
Defined.

(** ** Determinism of the data preparation *)

(** C8: two runs of the notebook with the same flag that complete and
    parse the same data out of their downloaded files end with the same
    sub-sample, the same training and test sentences and the same
    training and test labels, whatever the state of the generator of
    [random] and of the host each run starts in; each run passes the seed
    100 to [torch.manual_seed], [random.seed], [train_test_split] and
    [fit], in this order. *)
Theorem data_preparation_is_deterministic (L : library) q
    rs1 h1 rs2 h2 (g1 g2 : globals L) w1 w2 :
  notebook_with L q (fresh_kernel rs1 h1) = (Ok g1, w1) ->
  notebook_with L q (fresh_kernel rs2 h2) = (Ok g2, w2) ->
  read_conll_file L (data_file (cfg g1)) " "
  = read_conll_file L (data_file (cfg g2)) " " ->
  dat g1 = dat g2 /\
  seeds (trace w1) = [100; 100; 100; 100] /\
  seeds (trace w2) = [100; 100; 100; 100].
Proof.
  intros H1 H2 Hfile.
  apply completed_run in H1. destruct H1 as (x1 & E1 & T1 & _).
  apply completed_run in H2. destruct H2 as (x2 & E2 & T2 & _).
  assert (R1 : RANDOM_SEED (cfg g1) = 100)
    by (rewrite (Run.configured _ _ _ E1); destruct q; reflexivity).
  assert (R2 : RANDOM_SEED (cfg g2) = 100)
    by (rewrite (Run.configured _ _ _ E2); destruct q; reflexivity).
  split; [|split].
  - assert (F : TEST_DATA_FRACTION (cfg g1) = TEST_DATA_FRACTION (cfg g2))
      by (rewrite (Run.configured _ _ _ E1), (Run.configured _ _ _ E2);
          destruct q; reflexivity).
    assert (S : SAMPLE_RATIO (cfg g1) = SAMPLE_RATIO (cfg g2))
      by (rewrite (Run.configured _ _ _ E1), (Run.configured _ _ _ E2);
          destruct q; reflexivity).
    destruct E1 as [_ P1 K1 S1 A1 B1 C1 _ _ _ _ _ _ _ _ _ _ _ _ _ _ _].
    destruct E2 as [_ P2 K2 S2 A2 B2 C2 _ _ _ _ _ _ _ _ _ _ _ _ _ _ _].
    rewrite Hfile, P2 in P1. injection P1 as P1.
    unfold sample_size in K1, K2. rewrite <- P1, S, K2 in K1.
    injection K1 as K1.
    rewrite R1, <- P1, <- K1, <- R2, S2 in S1. injection S1 as S1.
    rewrite <- S1, <- A2 in A1. rewrite <- S1, <- B2 in B1.
    rewrite A1, B1, F, R1, <- R2, C2 in C1. injection C1 as C11 C12 C13 C14.
    destruct (dat g1), (dat g2). cbn in *. congruence.
  - rewrite T1. cbn. rewrite R1. reflexivity.
  - rewrite T2. cbn. rewrite R2. reflexivity.
Qed.

Lemma toy_run_completes_elsewhere :
  exists g,
    notebook_with (Toy.lib Toy.NoFailure) true
      (@fresh_kernel (Toy.lib Toy.NoFailure) 7 1%nat)
    = (Ok g,
       snd (notebook_with (Toy.lib Toy.NoFailure) true
              (@fresh_kernel (Toy.lib Toy.NoFailure) 7 1%nat))).
Proof.
  assert (S : status (fst (notebook_with (Toy.lib Toy.NoFailure) true
                             (@fresh_kernel (Toy.lib Toy.NoFailure) 7 1%nat)))
              = None)
    by (vm_compute; reflexivity).
  destruct (returned_of_status _ S) as [g E]. exists g.
  rewrite <- E. apply surjective_pairing.
Qed.

Lemma data_preparation_is_deterministic_witness :
  exists g1 g2 : globals (Toy.lib Toy.NoFailure),
    dat g1 = dat g2.
Proof.
  destruct (toy_run_completes true) as [g1 E1].
  destruct toy_run_completes_elsewhere as [g2 E2].
  exists g1, g2.
  exact (proj1 (data_preparation_is_deterministic (Toy.lib Toy.NoFailure)
                  true 0 0%nat 7 1%nat g1 g2 _ _ E1 E2 eq_refl)).
Defined.

(** ** The shape cell 12 needs of the report *)

Section Metrics.

Context {L : library}.

Lemma getitem_raises {A : Type} (l : list A) i e :
  Py.getitem l i = Raise e -> e = IndexError.
Proof.
  unfold Py.getitem. destruct (_ || _); [congruence|].
  destruct (nth_error _ _); congruence.
Qed.

Lemma getitem_in_range {A : Type} (l : list A) i x :
  0 <= i -> Py.getitem l i = Ok x -> (Z.to_nat i < List.length l)%nat.
Proof.
  intros Hi. unfold Py.getitem.
  destruct (i <? 0) eqn:E; [apply Z.ltb_lt in E; lia|].
  destruct (_ || _); [discriminate|].
  destruct (nth_error l (Z.to_nat i)) eqn:N; [|discriminate].
  intros _. apply nth_error_Some. congruence.
Qed.

(** The report has the shape exactly when its three fields parse. *)
Lemma well_shaped_iff rep :
  well_shaped L rep <->
  exists precision recall f1,
    report_metric L rep 2 = Some precision /\
    report_metric L rep 3 = Some recall /\
    report_metric L rep 4 = Some f1.
Proof.
  unfold well_shaped. split.
  - intros (_ & H2 & H3 & H4).
    destruct (report_metric L rep 2) as [p|]; [|contradiction].
    destruct (report_metric L rep 3) as [r|]; [|contradiction].
    destruct (report_metric L rep 4) as [f|]; [|contradiction].
    exists p, r, f. repeat split.
  - intros (p & r & f & H2 & H3 & H4). rewrite H2, H3, H4.
    repeat split; try discriminate.
    unfold report_metric, report_field in H4.
    destruct (Py.getitem (Py.split_sep LF rep) (-2)) as [line|e];
      [|discriminate].
    exists line. split; [reflexivity|].
    destruct (Py.getitem (Py.split line) 4) as [s|e] eqn:G; [|discriminate].
    apply getitem_in_range in G; lia.
Qed.

(** What cell 12 does, by the first field that is missing or does not
    parse. *)
Lemma cell_12_runs rep (w : world L) :
  match report_metric L rep 2 with
  | None =>
      (fst (cell_12 L rep w) = Raise IndexError \/
       fst (cell_12 L rep w) = Raise ValueError) /\
      snd (cell_12 L rep w) = w
  | Some precision =>
      match report_metric L rep 3 with
      | None =>
          (fst (cell_12 L rep w) = Raise IndexError \/
           fst (cell_12 L rep w) = Raise ValueError) /\
          scraps (snd (cell_12 L rep w))
          = scraps w ++ [("precision", precision)]
      | Some recall =>
          match report_metric L rep 4 with
          | None =>
              (fst (cell_12 L rep w) = Raise IndexError \/
               fst (cell_12 L rep w) = Raise ValueError) /\
              scraps (snd (cell_12 L rep w))
              = scraps w ++ [("precision", precision); ("recall", recall)]
          | Some f1 =>
              fst (cell_12 L rep w) = Ok tt /\
              scraps (snd (cell_12 L rep w))
              = scraps w ++
                [("precision", precision); ("recall", recall); ("f1", f1)]
          end
      end
  end.
Proof.
  unfold report_metric, report_field, cell_12, bind, lift, float_, glue.
  cbn zeta.
  destruct (Py.getitem (Py.split_sep LF rep) (-2)) as [line|e] eqn:G0.
  2:{ apply getitem_raises in G0. subst. cbn. auto. }
  destruct (Py.getitem (Py.split line) 2) as [s2|e] eqn:G2.
  2:{ apply getitem_raises in G2. subst. cbn. auto. }
  destruct (float_of_str L s2) as [p|]; [|cbn; auto].
  cbn [fst snd scraps].
  destruct (Py.getitem (Py.split line) 3) as [s3|e] eqn:G3.
  2:{ apply getitem_raises in G3. subst. cbn. auto. }
  destruct (float_of_str L s3) as [r|]; [|cbn; auto].
  cbn [fst snd scraps].
  destruct (Py.getitem (Py.split line) 4) as [s4|e] eqn:G4.
  2:{ apply getitem_raises in G4. subst. cbn. rewrite <- app_assoc. auto. }
  destruct (float_of_str L s4) as [f|]; cbn; rewrite <- !app_assoc; auto.
Qed.

End Metrics.

(** C9, as the specification states it, fails: a report that violates the
    shape does not always leave no metric recorded.  On a report whose
    second-to-last line is ["a b 0.78"], cell 12 glues the precision and
    then fails on the missing field 3. *)
Lemma a_metric_is_recorded_before_the_failure :
  ~ (forall (L : library) rep (w : world L),
        ~ well_shaped L rep ->
        scraps (snd (cell_12 L rep w)) = scraps w).
Proof.
  intros H.
  specialize (H (Toy.lib Toy.NoFailure)
                (String.append "a b 0.78" (String LF EmptyString))
                (Toy.start Toy.NoFailure)).
  assert (N : ~ well_shaped (Toy.lib Toy.NoFailure)
                (String.append "a b 0.78" (String LF EmptyString))).
  { intros (_ & _ & N & _). apply N. reflexivity. }
  specialize (H N). discriminate H.
Qed.

(** C9, amended: when the report has the shape (a second-to-last line of
    at least five fields whose fields 2, 3 and 4 parse as floats), cell 12
    returns and has glued the three metrics; when it has not, cell 12
    raises [IndexError] or [ValueError], and by then it has glued the
    metrics that come before the first field that is missing or does not
    parse: none if that is field 2 (or the line is missing), the
    precision if it is field 3, the precision and the recall if it is
    field 4. *)
Theorem metrics_cell_and_the_report_shape (L : library) rep (w : world L) :
  (well_shaped L rep ->
   exists precision recall f1,
     report_metric L rep 2 = Some precision /\
     report_metric L rep 3 = Some recall /\
     report_metric L rep 4 = Some f1 /\
     fst (cell_12 L rep w) = Ok tt /\
     scraps (snd (cell_12 L rep w))
     = scraps w ++ [("precision", precision); ("recall", recall); ("f1", f1)]) /\
  (~ well_shaped L rep ->
   (fst (cell_12 L rep w) = Raise IndexError \/
    fst (cell_12 L rep w) = Raise ValueError) /\
   (report_metric L rep 2 = None /\ scraps (snd (cell_12 L rep w)) = scraps w
    \/
    (exists precision,
        report_metric L rep 2 = Some precision /\
        report_metric L rep 3 = None /\
        scraps (snd (cell_12 L rep w))
        = scraps w ++ [("precision", precision)])
    \/
    (exists precision recall,
        report_metric L rep 2 = Some precision /\
        report_metric L rep 3 = Some recall /\
        report_metric L rep 4 = None /\
        scraps (snd (cell_12 L rep w))
        = scraps w ++ [("precision", precision); ("recall", recall)]))).
Proof.
  pose proof (cell_12_runs rep w) as R. split.
  - intros S. apply well_shaped_iff in S.
    destruct S as (p & r & f & H2 & H3 & H4). rewrite H2, H3, H4 in R.
    exists p, r, f. destruct R. repeat split; assumption.
  - intros N.
    destruct (report_metric L rep 2) as [p|] eqn:H2.
    + destruct (report_metric L rep 3) as [r|] eqn:H3.
      * destruct (report_metric L rep 4) as [f|] eqn:H4.
        -- exfalso. apply N. apply well_shaped_iff. exists p, r, f.
           repeat split; assumption.
        -- destruct R as [R1 R2]. split; [exact R1|].
           right. right. exists p, r. repeat split; assumption.
      * destruct R as [R1 R2]. split; [exact R1|].
        right. left. exists p. repeat split; assumption.
    + destruct R as [R1 R2]. split; [exact R1|].
      left. split; [reflexivity|]. rewrite R2. reflexivity.
Qed.

Lemma recorded_report_is_well_shaped :
  well_shaped (Toy.lib Toy.NoFailure) Toy.recorded_report.
Proof.
  apply well_shaped_iff. exists 0.78%float, 0.82%float, 0.8%float.
  repeat split; vm_compute; reflexivity.
Qed.

Lemma metrics_cell_and_the_report_shape_witness :
  exists precision recall f1,
    report_metric (Toy.lib Toy.NoFailure) Toy.recorded_report 2
    = Some precision /\
    report_metric (Toy.lib Toy.NoFailure) Toy.recorded_report 3
    = Some recall /\
    report_metric (Toy.lib Toy.NoFailure) Toy.recorded_report 4 = Some f1 /\
    fst (cell_12 (Toy.lib Toy.NoFailure) Toy.recorded_report
           (Toy.start Toy.NoFailure)) = Ok tt /\
    scraps (snd (cell_12 (Toy.lib Toy.NoFailure) Toy.recorded_report
                   (Toy.start Toy.NoFailure)))
    = scraps (Toy.start Toy.NoFailure) ++
      [("precision", precision); ("recall", recall); ("f1", f1)].
Proof.
  exact (proj1 (metrics_cell_and_the_report_shape (Toy.lib Toy.NoFailure)
                  Toy.recorded_report (Toy.start Toy.NoFailure))
           recorded_report_is_well_shaped).
Defined.

(** ** Every run follows one sequence of calls *)

Section Follows.

Context {L : library}.

Lemma glued_app (a b : list (event L * outcome)) :
  glued (a ++ b) = glued a ++ glued b.
Proof.
  induction a as [|[ev o] a IH]; [reflexivity|].
  cbn [app glued]. destruct ev; rewrite ?IH; reflexivity.
Qed.

Lemma follows_ret {A : Type} xs (a : A) : follows xs xs (@ret L A a).
Proof.
  intros w r w' H. inversion H. subst. exists [].
  rewrite !app_nil_r. repeat split.
Qed.

Lemma follows_lift {A : Type} xs (r : result A) : follows xs xs (@lift L A r).
Proof.
  intros w r' w' H. inversion H. subst. exists [].
  rewrite !app_nil_r. repeat split. destruct r'; [reflexivity|].
  exists xs. reflexivity.
Qed.

Lemma follows_one {A : Type} (m : M L A) ev name rest :
  callee ev = name ->
  (forall w, exists rs h,
      snd (m w)
      = World (trace w ++ [(ev, outcome_of (fst (m w)))]) rs h
          (scraps w ++ glued [(ev, outcome_of (fst (m w)))])) ->
  follows (name :: rest) rest m.
Proof.
  intros Hn Hm w r w' H. destruct (Hm w) as (rs & h & E).
  rewrite H in E. cbn [fst snd] in E. subst w'.
  exists [(ev, outcome_of r)]. cbn [trace scraps callees map fst].
  rewrite Hn. repeat split. destruct r; [reflexivity|].
  exists rest. reflexivity.
Qed.

Lemma follows_bind {A B : Type} xs ys zs (m : M L A) (f : A -> M L B) :
  follows xs ys m -> (forall a, follows ys zs (f a)) ->
  follows xs zs (bind m f).
Proof.
  intros Hm Hf w r w' H. unfold bind in H.
  destruct (m w) as [[a|e] w1] eqn:E.
  - destruct (Hm _ _ _ E) as (n1 & T1 & S1 & C1).
    destruct (Hf a _ _ _ H) as (n2 & T2 & S2 & C2).
    exists (n1 ++ n2). unfold callees in *.
    rewrite T2, T1, S2, S1, glued_app, map_app, <- !app_assoc.
    repeat split. destruct r.
    + rewrite C1, C2, <- ?app_assoc. reflexivity.
    + destruct C2 as [more C2]. exists more.
      rewrite C1, C2, <- ?app_assoc. reflexivity.
  - inversion H. subst. exact (Hm _ _ _ E).
Qed.

Lemma follows_with_Timer {A : Type} xs ys (body : M L A) :
  follows xs ys body -> follows xs ys (with_Timer body).
Proof.
  intros Hb w r w' H. unfold with_Timer, tick in H.
  destruct (default_timer L (host w)) as [t0 h0].
  destruct (body _) as [[a|e] w1] eqn:E;
    destruct (default_timer L (host w1)) as [t1 h1]; inversion H; subst;
    destruct (Hb _ _ _ E) as (new & T & S & C); exists new;
    repeat split; assumption.
Qed.

Lemma follows_call {A : Type} (ev : event L) (r : result A) rest :
  glued [(ev, outcome_of r)] = [] ->
  follows (callee ev :: rest) rest (call ev r).
Proof.
  intros G. apply (follows_one _ ev); [reflexivity|].
  intros w. exists (random_state w), (host w). cbn [call fst snd log].
  rewrite G, app_nil_r. reflexivity.
Qed.

Lemma follows_TemporaryDirectory rest :
  follows ("TemporaryDirectory" :: rest) rest (TemporaryDirectory L).
Proof.
  apply (follows_one _ EvTemporaryDirectory); [reflexivity|].
  intros w. unfold TemporaryDirectory.
  destruct (TemporaryDirectory_name L (host w)) as [r h].
  exists (random_state w), h. cbn. rewrite app_nil_r. reflexivity.
Qed.

Lemma follows_random_seed a rest :
  follows ("random.seed" :: rest) rest (random_seed_ L a).
Proof.
  apply (follows_one _ (EvRandomSeed a)); [reflexivity|].
  intros w. exists (random_seed L a), (host w). cbn.
  rewrite app_nil_r. reflexivity.
Qed.

Lemma follows_random_sample population k rest :
  follows ("random.sample" :: rest) rest (random_sample L population k).
Proof.
  apply (follows_one _ (EvRandomSample population k)); [reflexivity|].
  intros w. unfold random_sample. destruct (_ || _).
  - exists (random_state w), (host w). cbn. rewrite app_nil_r. reflexivity.
  - destruct (random_sample_positions L _ _ _) as [pos rs].
    exists rs, (host w). cbn. rewrite app_nil_r. reflexivity.
Qed.

Lemma follows_print args rest :
  follows ("print" :: rest) rest (print L args).
Proof.
  apply (follows_one _ (EvPrint args)); [reflexivity|].
  intros w. exists (random_state w), (host w). cbn.
  rewrite app_nil_r. reflexivity.
Qed.

Lemma follows_display df rest :
  follows ("display" :: rest) rest (display L df).
Proof.
  apply (follows_one _ (EvDisplay df)); [reflexivity|].
  intros w. exists (random_state w), (host w). cbn.
  rewrite app_nil_r. reflexivity.
Qed.

Lemma follows_glue name x rest :
  follows ("sb.glue" :: rest) rest (glue L name x).
Proof.
  apply (follows_one _ (EvGlue name x)); [reflexivity|].
  intros w. exists (random_state w), (host w). reflexivity.
Qed.

End Follows.

(** The rule that fits the head of the computation. *)
Ltac follows_tac :=
  lazymatch goal with
  | |- follows _ _ (bind _ _) =>
      eapply follows_bind; [follows_tac | intro; follows_tac]
  | |- follows _ _ (ret _) => apply follows_ret
  | |- follows _ _ (lift _) => apply follows_lift
  | |- follows _ _ (float_ _ _) => apply follows_lift
  | |- follows _ _ (call _ _) => apply follows_call; reflexivity
  | |- follows _ _ (with_Timer _) => apply follows_with_Timer; follows_tac
  | |- follows _ _ (TemporaryDirectory _) => apply follows_TemporaryDirectory
  | |- follows _ _ (random_seed_ _ _) => apply follows_random_seed
  | |- follows _ _ (random_sample _ _ _) => apply follows_random_sample
  | |- follows _ _ (print _ _) => apply follows_print
  | |- follows _ _ (display _ _) => apply follows_display
  | |- follows _ _ (glue _ _ _) => apply follows_glue
  | |- follows _ _ (match ?x with (_, _) => _ end) => destruct x; follows_tac
  | |- follows _ _ (sub_sample _ _ _ _) => unfold sub_sample; follows_tac
  | |- follows _ _ (cell_3 _ _) => unfold cell_3; cbv zeta; follows_tac
  | |- follows _ _ (cell_4 _ _) => unfold cell_4; cbv zeta; follows_tac
  | |- follows _ _ (cell_5 _ _) => unfold cell_5; follows_tac
  | |- follows _ _ (cell_6 _ _ _) => unfold cell_6; follows_tac
  | |- follows _ _ (cell_7 _ _ _) => unfold cell_7; cbv zeta; follows_tac
  | |- follows _ _ (cell_8 _ _ _) => unfold cell_8; follows_tac
  | |- follows _ _ (cell_9 _ _ _) => unfold cell_9; follows_tac
  | |- follows _ _ (cell_10 _ _ _ _ _) => unfold cell_10; follows_tac
  | |- follows _ _ (cell_11 _ _ _ _) =>
      unfold cell_11; cbv zeta;
      change (range (List.length sample_text)) with [0; 1];
      cbn [for_each]; follows_tac
  | |- follows _ _ (cell_12 _ _) => unfold cell_12; cbv zeta; follows_tac
  | |- follows _ _ (notebook_with _ _) => unfold notebook_with; follows_tac
  end.

Lemma notebook_follows (L : library) q :
  follows notebook_callees [] (notebook_with L q).
Proof. follows_tac. Qed.

(** X1: in every run, failed or not, the functions called so far are an
    initial segment of [notebook_callees], the one sequence of library
    calls the notebook makes; a run that returned has made all of them;
    and the scraps are those of the glue calls of the log. *)
Theorem every_run_follows_the_sequence (L : library) q rs h
    (r : result (globals L)) w' :
  notebook_with L q (fresh_kernel rs h) = (r, w') ->
  (exists more, notebook_callees = callees (trace w') ++ more) /\
  (status r = None -> callees (trace w') = notebook_callees) /\
  scraps w' = glued (trace w').
Proof.
  intros H. destruct (notebook_follows L q _ _ _ H) as (new & T & S & C).
  cbn [fresh_kernel trace scraps app] in T, S. rewrite T, S.
  repeat split.
  - destruct r; [exists []; exact C | exact C].
  - destruct r; [|discriminate]. intros _. rewrite C, app_nil_r. reflexivity.
Qed.

Lemma every_run_follows_the_sequence_witness :
  (exists more,
      notebook_callees
      = callees (trace (snd (notebook_with (Toy.lib Toy.FitFails) false
                               (Toy.start Toy.FitFails)))) ++ more) /\
  (status (fst (notebook_with (Toy.lib Toy.FitFails) false
                  (Toy.start Toy.FitFails))) = None ->
   callees (trace (snd (notebook_with (Toy.lib Toy.FitFails) false
                          (Toy.start Toy.FitFails))))
   = notebook_callees) /\
  scraps (snd (notebook_with (Toy.lib Toy.FitFails) false
                 (Toy.start Toy.FitFails)))
  = glued (trace (snd (notebook_with (Toy.lib Toy.FitFails) false
                         (Toy.start Toy.FitFails)))).
Proof.
  exact (every_run_follows_the_sequence (Toy.lib Toy.FitFails) false 0 0%nat
           _ _ (surjective_pairing _)).
Defined.

(** ** Edges of the cells *)

Section Edges.

Context {L : library}.

Lemma quick_sample_size_below_ten a b (s : list sentence) :
  (List.length s < 10)%nat ->
  sample_size (configuration true a b) s = Ok 0.
Proof.
  unfold sample_size. generalize (List.length s) as n. intros n Hn.
  do 10 (destruct n as [|n]; [vm_compute; reflexivity|]). lia.
Qed.

(** X3: a quick run over fewer than ten parsed sentences cannot get past
    the sub-sampling: the sample size is 0, [random.sample] returns no
    pair, and unpacking the empty transpose raises [ValueError]. *)
Theorem quick_run_needs_ten_sentences a b s l (w : world L) :
  (List.length s < 10)%nat ->
  fst (sub_sample L (configuration true a b) s l w) = Raise ValueError /\
  trace (snd (sub_sample L (configuration true a b) s l w))
  = trace w ++ [(EvRandomSeed 100, Returned);
                (EvRandomSample (combine s l) 0, Returned)].
Proof.
  intros Hs. unfold sub_sample, bind, random_seed_, lift.
  rewrite (quick_sample_size_below_ten a b s Hs).
  unfold random_sample. cbn [random_state trace host scraps].
  assert (E : (0 <? 0) || (Z.of_nat (List.length (combine s l)) <? 0) = false).
  { cbn. apply Z.ltb_ge. lia. }
  rewrite E. destruct (random_sample_positions L _ _ _) as [pos rs].
  cbn. rewrite <- app_assoc. split; reflexivity.
Qed.

(** X4: a run without [QUICK_RUN] whose parse has fewer label lists than
    sentences fails in [random.sample]: the sample size is the number of
    sentences, the population is the shorter zip, and the call raises
    [ValueError]. *)
Theorem full_run_needs_labels_for_every_sentence c s l (w : world L) :
  SAMPLE_RATIO c = Py.PyInt 1 ->
  (List.length l < List.length s)%nat ->
  fst (sub_sample L c s l w) = Raise ValueError /\
  trace (snd (sub_sample L c s l w))
  = trace w ++ [(EvRandomSeed (RANDOM_SEED c), Returned);
                (EvRandomSample (combine s l) (Z.of_nat (List.length s)),
                 Raised ValueError)].
Proof.
  intros Hr Hl. unfold sub_sample, bind, random_seed_, lift, sample_size.
  rewrite Hr. cbn [Py.mul Py.int].
  replace (1 * Z.of_nat (List.length s)) with (Z.of_nat (List.length s)) by lia.
  unfold random_sample. cbn [random_state trace host scraps].
  assert (E : (Z.of_nat (List.length s) <? 0)
              || (Z.of_nat (List.length (combine s l))
                  <? Z.of_nat (List.length s)) = true).
  { apply orb_true_iff. right. apply Z.ltb_lt. rewrite length_combine. lia. }
  rewrite E. cbn. rewrite <- app_assoc. split; reflexivity.
Qed.

(** X6: cell 5 shows the first training sentence; when the training part
    has no sentence, or no label list, it raises [IndexError] before it
    calls anything. *)
Theorem cell_5_needs_a_training_sentence d (w : world L) :
  train_sentence_list d = [] \/ train_labels_list d = [] ->
  cell_5 L d w = (Raise IndexError, w).
Proof.
  intros [H|H]; unfold cell_5, bind, lift; rewrite H.
  - reflexivity.
  - destruct (Py.getitem (train_sentence_list d) 0) as [t|e] eqn:G.
    + reflexivity.
    + apply getitem_raises in G. subst. reflexivity.
Qed.

(** X7: cell 11 indexes the predicted labels by the two example
    sentences; when the library hands back fewer than two label lists the
    cell does not return. *)
Theorem cell_11_needs_two_label_lists c p m (w : world L) ds loader ps
    predicted :
  preprocess L (processor p) sample_tokens (MAX_SEQ_LENGTH c) None
    (label_map p) (TRAILING_PIECE_TAG c) = Ok ds ->
  dataloader_from_dataset L ds (BATCH_SIZE c) None false false = Ok loader ->
  predict L m loader None true = Ok ps ->
  get_predicted_token_labels L m ps (label_map p) ds = Ok predicted ->
  (List.length predicted < 2)%nat ->
  exists e, fst (cell_11 L c p m w) = Raise e.
Proof.
  intros H1 H2 H3 H4 Hn. unfold cell_11. cbv zeta.
  change (map Py.split sample_text) with sample_tokens.
  change (range (List.length sample_text)) with [0; 1].
  unfold bind, call. rewrite H1, H2, H3, H4. cbn [for_each bind].
  unfold bind, lift, print, call.
  change (Py.getitem sample_text 0)
    with (@Ok string "Is it true that Jane works at Microsoft?").
  change (Py.getitem sample_tokens 0)
    with (@Ok sentence ["Is"; "it"; "true"; "that"; "Jane"; "works"; "at";
                        "Microsoft?"]).
  cbn iota.
  destruct predicted as [|t1 [|t2 rest]]; [| |cbn in Hn; lia].
  - eexists. reflexivity.
  - change (Py.getitem [t1] 0) with (Ok t1). cbn iota.
    destruct (pd_DataFrame L _ _) as [df|e]; [|eexists; reflexivity].
    cbn iota.
    change (Py.getitem sample_text 1)
      with (@Ok string "Joe now lives in Copenhagen.").
    change (Py.getitem sample_tokens 1)
      with (@Ok sentence ["Joe"; "now"; "lives"; "in"; "Copenhagen."]).
    cbn iota. eexists. reflexivity.
Qed.

End Edges.

Lemma quick_run_needs_ten_sentences_witness :
  fst (sub_sample (Toy.lib Toy.NoFailure)
         (configuration true EmptyString EmptyString)
         [["Only"; "one"]] [["O"; "O"]] (Toy.start Toy.NoFailure))
  = Raise ValueError /\
  trace (snd (sub_sample (Toy.lib Toy.NoFailure)
                (configuration true EmptyString EmptyString)
                [["Only"; "one"]] [["O"; "O"]] (Toy.start Toy.NoFailure)))
  = trace (Toy.start Toy.NoFailure) ++
    [(EvRandomSeed 100, Returned);
     (EvRandomSample (combine [["Only"; "one"]] [["O"; "O"]]) 0, Returned)].
Proof.
  apply (@quick_run_needs_ten_sentences (Toy.lib Toy.NoFailure)).
  cbn. lia.
Defined.

Lemma full_run_needs_labels_for_every_sentence_witness :
  fst (sub_sample (Toy.lib Toy.NoFailure)
         (configuration false EmptyString EmptyString)
         [["a"]; ["b"]] [["O"]] (Toy.start Toy.NoFailure))
  = Raise ValueError /\
  trace (snd (sub_sample (Toy.lib Toy.NoFailure)
                (configuration false EmptyString EmptyString)
                [["a"]; ["b"]] [["O"]] (Toy.start Toy.NoFailure)))
  = trace (Toy.start Toy.NoFailure) ++
    [(EvRandomSeed
        (RANDOM_SEED (configuration false EmptyString EmptyString)), Returned);
     (EvRandomSample (combine [["a"]; ["b"]] [["O"]])
        (Z.of_nat (List.length [["a"]; ["b"]])), Raised ValueError)].
Proof.
  apply (@full_run_needs_labels_for_every_sentence (Toy.lib Toy.NoFailure)).
  - reflexivity.
  - cbn. lia.
Defined.

Lemma cell_5_needs_a_training_sentence_witness :
  cell_5 (Toy.lib Toy.NoFailure) (Data [] [] [] [] [] [])
    (Toy.start Toy.NoFailure)
  = (Raise IndexError, Toy.start Toy.NoFailure).
Proof.
  apply (@cell_5_needs_a_training_sentence (Toy.lib Toy.NoFailure)).
  left. reflexivity.
Defined.

Lemma cell_11_needs_two_label_lists_witness :
  exists e,
    fst (cell_11 (Toy.lib Toy.FewLabels)
           (configuration false EmptyString EmptyString)
           (@Prepared (Toy.lib Toy.FewLabels) tt [] ([], None)
              (([], None), true) ([], None) (([], None), false))
           [] (Toy.start Toy.FewLabels))
    = Raise e.
Proof.
  refine (@cell_11_needs_two_label_lists (Toy.lib Toy.FewLabels) _ _ _ _
            (sample_tokens, None) ((sample_tokens, None), false)
            (map (map (fun _ => "O")) sample_tokens)
            [map (fun _ => "O")
               ["Is"; "it"; "true"; "that"; "Jane"; "works"; "at";
                "Microsoft?"]]
            _ _ _ _ _); try reflexivity.
  cbn. lia.
Defined.

(** ** Scraps come last *)

Section GlueLast.

Context {L : library}.

Lemma glued_callee (tr : list (event L * outcome)) :
  glued tr <> [] -> In "sb.glue" (callees tr).
Proof.
  induction tr as [|[ev o] tr IH]; [intros H; contradiction H; reflexivity|].
  cbn [glued callees map fst].
  destruct ev; cbn [callee]; try (intros H; right; exact (IH H)).
  intros _. left. reflexivity.
Qed.

End GlueLast.

Lemma no_glue_before_glue : ~ In "sb.glue" callees_before_glue.
Proof.
  cbv [callees_before_glue notebook_callees preprocessing_callees firstn app].
  intros H. repeat (destruct H as [H|H]; [discriminate H|]). exact H.
Qed.

(** X2: the metrics are recorded only after everything else ran: in every
    run, failed or not, that has glued a scrap, the 36 calls of cells 3 to
    11 (from the temporary directories to the printing of the second
    example) were all made before it. *)
Theorem scraps_come_last (L : library) q rs h (r : result (globals L)) w' :
  notebook_with L q (fresh_kernel rs h) = (r, w') ->
  scraps w' <> [] ->
  exists glue_calls, callees (trace w') = callees_before_glue ++ glue_calls.
Proof.
  intros H Hs. destruct (notebook_follows L q _ _ _ H) as (new & T & S & C).
  cbn [fresh_kernel trace scraps app] in T, S. rewrite T. rewrite S in Hs.
  apply glued_callee in Hs.
  assert (P : exists more, notebook_callees = callees new ++ more)
    by (destruct r; [exists []; exact C | exact C]).
  destruct P as (more & P).
  change notebook_callees
    with (callees_before_glue ++ ["sb.glue"; "sb.glue"; "sb.glue"]) in P.
  symmetry in P. apply app_eq_app in P.
  destruct P as (x & [[P _] | [P _]]).
  - exists x. exact P.
  - exfalso. apply no_glue_before_glue. rewrite P. apply in_or_app.
    left. exact Hs.
Qed.

Lemma scraps_come_last_witness :
  exists glue_calls,
    callees (trace (snd (notebook_with (Toy.lib Toy.NoFailure) false
                           (Toy.start Toy.NoFailure))))
    = callees_before_glue ++ glue_calls.
Proof.
  refine (scraps_come_last (Toy.lib Toy.NoFailure) false 0 0%nat
            (fst (notebook_with (Toy.lib Toy.NoFailure) false
                    (Toy.start Toy.NoFailure)))
            (snd (notebook_with (Toy.lib Toy.NoFailure) false
                    (Toy.start Toy.NoFailure)))
            (surjective_pairing _) _).
  rewrite recorded_scraps. discriminate.
Defined.

(** ** The built-ins the cells lean on *)

Lemma split_sep_free sep s :
  contains sep s = false -> Py.split_sep sep s = [s].
Proof.
  induction s as [|c s IH]; [reflexivity|]. cbn [contains Py.split_sep].
  intros H. apply orb_false_iff in H. destruct H as [H1 H2].
  rewrite H1, (IH H2). reflexivity.
Qed.

Lemma split_sep_append sep a b :
  contains sep a = false ->
  Py.split_sep sep (String.append a (String sep b))
  = a :: Py.split_sep sep b.
Proof.
  induction a as [|c a IH]; cbn [contains String.append Py.split_sep].
  - intros _. rewrite Ascii.eqb_refl. reflexivity.
  - intros H. apply orb_false_iff in H. destruct H as [H1 H2].
    rewrite H1, (IH H2). reflexivity.
Qed.

Lemma split_sep_after sep a b :
  exists p pre,
    Py.split_sep sep (String.append a (String sep b))
    = (p :: pre) ++ Py.split_sep sep b.
Proof.
  induction a as [|c a IH]; cbn [String.append Py.split_sep].
  - rewrite Ascii.eqb_refl. exists EmptyString, []. reflexivity.
  - destruct IH as (p & pre & ->). destruct (Ascii.eqb c sep).
    + exists EmptyString, (p :: pre). reflexivity.
    + exists (String c p), pre. reflexivity.
Qed.

Lemma getitem_second_to_last {A : Type} (pre : list A) a b :
  Py.getitem (pre ++ [a; b]) (-2) = Ok a.
Proof.
  unfold Py.getitem. cbv zeta. change (-2 <? 0) with true. cbv iota.
  rewrite length_app. cbn [List.length].
  replace (Z.of_nat (List.length pre + 2) + -2)
    with (Z.of_nat (List.length pre)) by lia.
  assert (B1 : (Z.of_nat (List.length pre) <? 0) = false)
    by (apply Z.ltb_ge; lia).
  assert (B2 : (Z.of_nat (List.length pre + 2)
                <=? Z.of_nat (List.length pre)) = false)
    by (apply Z.leb_gt; lia).
  rewrite B1, B2, Nat2Z.id. cbn [orb].
  rewrite nth_error_app2 by lia. rewrite Nat.sub_diag. reflexivity.
Qed.

(** X10: [split] undoes [join]: joining lines that do not hold the
    separator and splitting the result at the separator gives the lines
    back.  (For no line at all the join is the empty string, which splits
    into one empty line.) *)
Theorem split_sep_concat sep line lines :
  Forall (fun s => contains sep s = false) (line :: lines) ->
  Py.split_sep sep (String.concat (String sep EmptyString) (line :: lines))
  = line :: lines.
Proof.
  revert line. induction lines as [|next lines IH]; intros line H.
  - cbn [String.concat]. apply split_sep_free. inversion H. assumption.
  - inversion H as [|x xs Hx Hxs]. subst.
    change (String.concat (String sep EmptyString) (line :: next :: lines))
      with (String.append line
              (String.append (String sep EmptyString)
                 (String.concat (String sep EmptyString) (next :: lines)))).
    cbn [String.append]. rewrite (split_sep_append _ _ _ Hx), (IH next Hxs).
    reflexivity.
Qed.

Lemma split_sep_concat_witness :
  Py.split_sep LF
    (String.concat (String LF EmptyString) ["micro avg 0.78"; "macro avg 0.8"; ""])
  = ["micro avg 0.78"; "macro avg 0.8"; ""].
Proof.
  apply split_sep_concat. repeat constructor.
Defined.

Section ReportLine.

Context {L : library}.

(** X8: a report without a newline makes cell 12 raise [IndexError]
    before anything is glued or logged: its split has one element, and
    there is no second-to-last one. *)
Theorem one_line_report_raises rep (w : world L) :
  contains LF rep = false ->
  cell_12 L rep w = (Raise IndexError, w).
Proof.
  intros H. unfold cell_12, bind, lift. cbv zeta.
  rewrite (split_sep_free _ _ H). reflexivity.
Qed.

(** X9: when the report ends with a newline, the line whose fields cell 12
    reads is the text between the last two newlines, that is the last
    line of the report. *)
Theorem report_fields_come_from_the_last_line body line i :
  contains LF line = false ->
  report_field
    (String.append body
       (String LF (String.append line (String LF EmptyString)))) i
  = Py.getitem (Py.split line) i.
Proof.
  intros H. unfold report_field.
  destruct (split_sep_after LF body
              (String.append line (String LF EmptyString))) as (p & pre & E).
  rewrite E, (split_sep_append _ _ _ H).
  change (Py.split_sep LF EmptyString) with [EmptyString].
  rewrite (getitem_second_to_last (p :: pre) line EmptyString).
  reflexivity.
Qed.

End ReportLine.

Lemma one_line_report_raises_witness :
  cell_12 (Toy.lib Toy.NoFailure) "macro avg 0.78 0.82 0.80 1069"
    (Toy.start Toy.NoFailure)
  = (Raise IndexError, Toy.start Toy.NoFailure).
Proof.
  apply (@one_line_report_raises (Toy.lib Toy.NoFailure)). reflexivity.
Defined.

Lemma report_fields_come_from_the_last_line_witness :
  report_field
    (String.append "micro avg 0.7"
       (String LF (String.append "macro avg 0.78 0.82 0.80"
                     (String LF EmptyString)))) 2
  = Py.getitem (Py.split "macro avg 0.78 0.82 0.80") 2.
Proof.
  apply report_fields_come_from_the_last_line. reflexivity.
Defined.

(** ** Whitespace splitting *)

Lemma has_space_append a b :
  has_space (String.append a b) = has_space a || has_space b.
Proof.
  induction a as [|c a IH]; [reflexivity|].
  cbn [String.append has_space]. rewrite IH, orb_assoc. reflexivity.
Qed.

Lemma append_assoc a b c :
  String.append (String.append a b) c = String.append a (String.append b c).
Proof.
  induction a as [|x a IH]; [reflexivity|].
  cbn [String.append]. rewrite IH. reflexivity.
Qed.

Lemma fields_word cur word rest :
  has_space word = false ->
  Py.fields cur (String.append word rest)
  = Py.fields (String.append cur word) rest.
Proof.
  revert cur. induction word as [|c word IH]; intros cur H.
  - cbn [String.append].
    replace (String.append cur EmptyString) with cur; [reflexivity|].
    clear. induction cur as [|x cur IH]; [reflexivity|].
    cbn [String.append]. rewrite <- IH. reflexivity.
  - cbn [has_space] in H. apply orb_false_iff in H. destruct H as [H1 H2].
    cbn [String.append Py.fields]. rewrite H1, (IH _ H2), append_assoc.
    reflexivity.
Qed.

(** X11: [s.split()] undoes a join with single spaces: for words that are
    not empty and hold no whitespace, splitting their join gives the
    words back. *)
Theorem split_join_words (words : list string) :
  Forall (fun w => w <> EmptyString /\ has_space w = false) words ->
  Py.split (String.concat " " words) = words.
Proof.
  unfold Py.split. induction 1 as [|word words [Hne Hsp] Hws IH];
    [reflexivity|].
  destruct words as [|next words].
  - cbn [String.concat].
    replace word with (String.append word EmptyString) at 1.
    + rewrite (fields_word _ _ _ Hsp). cbn [String.append Py.fields].
      destruct word; [contradiction Hne; reflexivity | reflexivity].
    + clear. induction word as [|x word IH]; [reflexivity|].
      cbn [String.append]. rewrite IH. reflexivity.
  - change (String.concat " " (word :: next :: words))
      with (String.append word
              (String.append " " (String.concat " " (next :: words)))).
    rewrite (fields_word _ _ _ Hsp). cbn [String.append Py.fields].
    change (Py.isspace " ") with true. cbv iota. rewrite IH.
    destruct word; [contradiction Hne; reflexivity | reflexivity].
Qed.

Lemma split_join_words_witness :
  Py.split (String.concat " " ["Joe"; "now"; "lives"; "in"; "Copenhagen."])
  = ["Joe"; "now"; "lives"; "in"; "Copenhagen."].
Proof.
  apply split_join_words.
  repeat constructor; discriminate.
Defined.

(** ** The size of the sample *)

(** X5: without [QUICK_RUN] the sub-sampling keeps the size of the corpus:
    when it returns, the sample has as many sentences and as many label
    lists as sentences were parsed. *)
Theorem full_run_keeps_the_size (L : library) c s l (w : world L) s' l' w' :
  SAMPLE_RATIO c = Py.PyInt 1 ->
  sub_sample L c s l w = (Ok (s', l'), w') ->
  List.length s' = List.length s /\ List.length l' = List.length s.
Proof.
  intros Hr H. apply sub_sample_ok in H.
  destruct H as (k & sampled & K & B & P & _ & -> & -> & _).
  unfold sample_size in K. rewrite Hr in K. cbn [Py.mul Py.int] in K.
  rewrite Z.mul_1_l in K. injection K as K.
  apply pick_length in P. rewrite sampled_positions_length in P.
  rewrite !length_map, P, <- K. split; lia.
Qed.

Lemma full_run_keeps_the_size_witness :
  List.length (fst Toy.corpus) = List.length (fst Toy.corpus) /\
  List.length (snd Toy.corpus) = List.length (fst Toy.corpus).
Proof.
  refine (full_run_keeps_the_size (Toy.lib Toy.NoFailure)
            (configuration false EmptyString EmptyString)
            (fst Toy.corpus) (snd Toy.corpus) (Toy.start Toy.NoFailure)
            (fst Toy.corpus) (snd Toy.corpus)
            (snd (sub_sample (Toy.lib Toy.NoFailure)
                    (configuration false EmptyString EmptyString)
                    (fst Toy.corpus) (snd Toy.corpus)
                    (Toy.start Toy.NoFailure))) _ _); reflexivity.
Defined.

(** X14: the sub-sampling returns whenever the sample size is at least 1
    and at most the number of zipped pairs and the positions the
    generator picks lie in the population. *)
Theorem sub_sample_returns (L : library) c s l (w : world L) k :
  sample_size c s = Ok k ->
  1 <= k <= Z.of_nat (List.length (combine s l)) ->
  Forall (fun i => (i < List.length (combine s l))%nat)
    (sampled_positions L (RANDOM_SEED c) (List.length (combine s l)) k) ->
  exists s' l', fst (sub_sample L c s l w) = Ok (s', l').
Proof.
  intros K B F. unfold sub_sample, bind, random_seed_, lift. rewrite K.
  unfold random_sample. cbn [random_state trace host scraps].
  assert (E : (k <? 0) || (Z.of_nat (List.length (combine s l)) <? k) = false).
  { apply orb_false_iff. split; apply Z.ltb_ge; lia. }
  rewrite E. unfold sampled_positions in F.
  destruct (random_sample_positions L _ _ _) as [pos rs]. cbn [fst] in F.
  destruct (pick_in_range _ _ F) as [xs P]. rewrite P.
  pose proof (pick_length _ _ _ P) as Hlen.
  rewrite length_map, length_seq in Hlen.
  destruct xs as [|x xs]; [cbn in Hlen; lia|].
  eexists. eexists. reflexivity.
Qed.

Lemma sub_sample_returns_witness :
  exists s' l',
    fst (sub_sample (Toy.lib Toy.NoFailure)
           (configuration true EmptyString EmptyString)
           (fst Toy.corpus) (snd Toy.corpus) (Toy.start Toy.NoFailure))
    = Ok (s', l').
Proof.
  apply (sub_sample_returns (Toy.lib Toy.NoFailure)
           (configuration true EmptyString EmptyString)
           (fst Toy.corpus) (snd Toy.corpus) (Toy.start Toy.NoFailure) 2).
  - reflexivity.
  - cbn. lia.
  - repeat constructor.
Defined.
